(** * replayer.py: input recorder and replay engine

    A shallow embedding of [src/replayer.py]: the two event dataclasses, the
    WinAPI input structures and the two low-level controllers, the
    [BackgroundRecorder] callbacks and the [GameplayPlayer] loader and event
    loop, followed by the properties of the specification that concern them.

    Conventions of the embedding.
    - Python [int] is [Z].  The sensitivity, the scaled deltas and the two
      accumulators are IEEE 754 binary64 numbers (the primitive [float]),
      with the interpreter's conversions between [int] and [float].  Time is
      logical: clock readings, durations and time stamps are rationals [Q].
    - Python [str] is a [string] holding the UTF-8 encoding.  On pure ASCII
      strings the builtins ([lower], [upper], [isalpha], [len], [int]) are
      computed; elsewhere they are delegated to the [Unicode] interface.
    - A statement that may raise returns a [result]; the player's effects
      (SendInput calls, sleeps, printed lines, the monotonic clock) are
      threaded through a [world] and recorded in one chronological trace.
    - The ctypes integer fields wrap around silently ([c_long], [c_ulong],
      [c_ushort] on Windows: 32, 32 and 16 bits). *)

From Stdlib Require Import ZArith QArith Qround Qabs Lia Lqa Bool List.
From Stdlib Require Import String Ascii DecimalString DecimalPos DecimalZ.
From Stdlib Require Import Sorted Permutation.
From Stdlib Require Floats Uint63.
Import ListNotations.

Local Open Scope Z_scope.
Local Open Scope string_scope.

(* ================================================================== *)
(** ** Python values, exceptions and strings *)

Module Py.

Inductive exn : Type :=
| FileNotFoundError (path : string)
| JSONDecodeError
| KeyError (key : string)
| TypeError
| ValueError
| AttributeError
| ArgumentError
| OverflowError.

Inductive result (A : Type) : Type :=
| Ok (a : A)
| Raise (e : exn).

Arguments Ok {A} a.
Arguments Raise {A} e.

Definition bind {A B : Type} (c : result A) (k : A -> result B) : result B :=
  match c with
  | Ok a => k a
  | Raise e => Raise e
  end.


(** The scalar JSON values: what [asdict] of the two dataclasses writes for
    a field and what [json.load] gives back for it. *)
Inductive value : Type :=
| VNone
| VBool (b : bool)
| VInt (z : Z)
| VFloat (q : Q)
| VStr (s : string).

(** A JSON object whose members are scalars, in insertion order. *)
Definition dict : Type := list (string * value).

Fixpoint lookup (k : string) (d : dict) : option value :=
  match d with
  | [] => None
  | (k', v) :: d' => if String.eqb k k' then Some v else lookup k d'
  end.

(** [d[k]] *)
Definition getitem (d : dict) (k : string) : result value :=
  match lookup k d with
  | Some v => Ok v
  | None => Raise (KeyError k)
  end.

(** Truth value of an object in a condition. *)
Definition truthy (v : value) : bool :=
  match v with
  | VNone => false
  | VBool b => b
  | VInt z => negb (Z.eqb z 0)
  | VFloat q => negb (Qeq_bool q 0)
  | VStr s => negb (String.eqb s "")
  end.

(** The number an [int], [float] or [bool] stands for. *)
Definition as_number (v : value) : option Q :=
  match v with
  | VBool b => Some (if b then 1%Q else 0%Q)
  | VInt z => Some (inject_Z z)
  | VFloat q => Some q
  | VNone | VStr _ => None
  end.

Definition Qlt_bool (x y : Q) : bool := negb (Qle_bool y x).

(** [a < b]: numbers by value, strings by code point (which is the order of
    their UTF-8 encodings), anything else is a [TypeError]. *)
Definition less_than (a b : value) : result bool :=
  match as_number a, as_number b with
  | Some x, Some y => Ok (Qlt_bool x y)
  | _, _ =>
      match a, b with
      | VStr s, VStr t => Ok (String.ltb s t)
      | _, _ => Raise TypeError
      end
  end.

(** [v == 'literal'] *)
Definition eq_str (v : value) (s : string) : bool :=
  match v with
  | VStr t => String.eqb t s
  | _ => false
  end.

(** The integer part of a number, toward zero: what [int(x)] gives for the
    number a finite float stands for. *)
Definition int_of_float (x : Q) : Z := Z.quot (Qnum x) (Zpos (Qden x)).

(** [str(n)] of an int. *)
Definition str_of_int (n : Z) : string := NilZero.string_of_int (Z.to_int n).

(** *** Strings *)

Definition is_ascii_char (c : ascii) : bool := (N_of_ascii c <? 128)%N.

Fixpoint is_ascii (s : string) : bool :=
  match s with
  | EmptyString => true
  | String c s' => is_ascii_char c && is_ascii s'
  end.

Definition is_upper_char (c : ascii) : bool :=
  ((65 <=? N_of_ascii c) && (N_of_ascii c <=? 90))%N.

Definition is_lower_char (c : ascii) : bool :=
  ((97 <=? N_of_ascii c) && (N_of_ascii c <=? 122))%N.

Definition is_digit_char (c : ascii) : bool :=
  ((48 <=? N_of_ascii c) && (N_of_ascii c <=? 57))%N.

Definition lower_char (c : ascii) : ascii :=
  if is_upper_char c then ascii_of_N (N_of_ascii c + 32) else c.

Definition upper_char (c : ascii) : ascii :=
  if is_lower_char c then ascii_of_N (N_of_ascii c - 32) else c.

Fixpoint map_string (f : ascii -> ascii) (s : string) : string :=
  match s with
  | EmptyString => EmptyString
  | String c s' => String (f c) (map_string f s')
  end.

Fixpoint all_string (p : ascii -> bool) (s : string) : bool :=
  match s with
  | EmptyString => true
  | String c s' => p c && all_string p s'
  end.

(** Value of a run of decimal digits, most significant first. *)
Fixpoint digits_value (acc : Z) (s : string) : Z :=
  match s with
  | EmptyString => acc
  | String c s' => digits_value (10 * acc + (Z.of_N (N_of_ascii c) - 48)) s'
  end.

(** A sign followed by a non-empty run of ASCII digits: the shape of every
    integer the recorder prints. *)
Definition plain_int (s : string) : option Z :=
  match s with
  | EmptyString => None
  | String "-"%char (String c r) =>
      if all_string is_digit_char (String c r)
      then Some (- digits_value 0 (String c r)) else None
  | String "+"%char (String c r) =>
      if all_string is_digit_char (String c r)
      then Some (digits_value 0 (String c r)) else None
  | _ => if all_string is_digit_char s then Some (digits_value 0 s) else None
  end.

(** [s[:-1]] on bytes. *)
Fixpoint drop_last (s : string) : string :=
  match s with
  | EmptyString => EmptyString
  | String c EmptyString => EmptyString
  | String c s' => String c (drop_last s')
  end.

Fixpoint drop (n : nat) (s : string) : string :=
  match n, s with
  | O, _ => s
  | S n', EmptyString => EmptyString
  | S n', String _ s' => drop n' s'
  end.

(** What the interpreter's Unicode tables and its integer parser decide for
    the strings the ASCII rules above do not cover. *)
Class Unicode : Type := {
  uni_isalpha : string -> bool;
  uni_lower : string -> string;
  uni_upper : string -> string;
  uni_len : string -> nat;
  uni_ord : string -> option Z;
  uni_drop_last : string -> string;
  uni_int : string -> option Z
}.

Section Builtins.
Context {U : Unicode}.

(** [s.isalpha()] *)
Definition isalpha (s : string) : bool :=
  if is_ascii s
  then negb (String.eqb s "")
       && all_string (fun c => is_upper_char c || is_lower_char c) s
  else uni_isalpha s.

(** [s.lower()] *)
Definition lower (s : string) : string :=
  if is_ascii s then map_string lower_char s else uni_lower s.

(** [s.upper()] *)
Definition upper (s : string) : string :=
  if is_ascii s then map_string upper_char s else uni_upper s.

(** [len(s)], in code points *)
Definition len (s : string) : nat :=
  if is_ascii s then String.length s else uni_len s.

(** [ord(s)]: the code point of a one-character string, [TypeError] for
    any other length. *)
Definition ord (s : string) : result Z :=
  if is_ascii s then
    match s with
    | String c EmptyString => Ok (Z.of_N (N_of_ascii c))
    | _ => Raise TypeError
    end
  else
    match uni_ord s with
    | Some n => Ok n
    | None => Raise TypeError
    end.

(** [s[8:-1]] of a string that starts with the eight ASCII characters of
    ["KeyCode("]. *)
Definition slice_8_m1 (s : string) : string :=
  if is_ascii s then drop_last (drop 8 s) else uni_drop_last (drop 8 s).

(** [int(s)] of a string; [ValueError] when it is not an integer
    literal. *)
Definition int_of_str (s : string) : result Z :=
  match plain_int s with
  | Some n => Ok n
  | None =>
      match uni_int s with
      | Some n => Ok n
      | None => Raise ValueError
      end
  end.
End Builtins.

(** [chr(n)] for a code below 128. *)
Definition chr (n : Z) : string :=
  String (ascii_of_N (Z.to_N n)) EmptyString.

End Py.

Export Py.

Notation "x <- c ;; k" := (Py.bind c (fun x => k))
  (at level 61, c at next level, right associativity).

(* ================================================================== *)
(** ** The event dataclasses and the recording file *)

(** [@dataclass class MouseEvent]: every field but [type] defaults to
    [None]. *)
Module MouseEvent.
Record t : Type := Build {
  type : string;
  x : option Z;
  y : option Z;
  button : option string;
  pressed : option bool;
  dx : option Z;
  dy : option Z;
  timestamp : option Q
}.
End MouseEvent.

(** [@dataclass class KeyboardEvent] *)
Module KeyboardEvent.
Record t : Type := Build {
  type : string;
  key : option string;
  pressed : option bool;
  timestamp : option Q
}.
End KeyboardEvent.

Module Store.

Definition opt_value {A : Type} (f : A -> value) (o : option A) : value :=
  match o with
  | Some a => f a
  | None => VNone
  end.

(** [asdict(event)]: one member per field, in declaration order, [None]
    for a field that was not set. *)
Definition asdict_mouse (e : MouseEvent.t) : dict :=
  [ ("type", VStr (MouseEvent.type e));
    ("x", opt_value VInt (MouseEvent.x e));
    ("y", opt_value VInt (MouseEvent.y e));
    ("button", opt_value VStr (MouseEvent.button e));
    ("pressed", opt_value VBool (MouseEvent.pressed e));
    ("dx", opt_value VInt (MouseEvent.dx e));
    ("dy", opt_value VInt (MouseEvent.dy e));
    ("timestamp", opt_value VFloat (MouseEvent.timestamp e)) ].

Definition asdict_keyboard (e : KeyboardEvent.t) : dict :=
  [ ("type", VStr (KeyboardEvent.type e));
    ("key", opt_value VStr (KeyboardEvent.key e));
    ("pressed", opt_value VBool (KeyboardEvent.pressed e));
    ("timestamp", opt_value VFloat (KeyboardEvent.timestamp e)) ].

(** The parsed content of a recording file: a JSON object whose two event
    members are arrays of flat objects.  A member that the object does not
    have is [None] here (reading it is a [KeyError]). *)
Record replay_data : Type := {
  mouse_events : option (list dict);
  keyboard_events : option (list dict);
  total_duration : option value;
  record_date : option value;
  metadata : option dict
}.

(** A file is text that [json.load] rejects, or text that it parses. *)
Inductive file : Type :=
| Unparseable
| Json (data : replay_data).

(** The files that exist, by path; the first entry for a path is the
    current content. *)
Definition disk : Type := list (string * file).

Fixpoint read (path : string) (d : disk) : option file :=
  match d with
  | [] => None
  | (p, f) :: d' => if String.eqb path p then Some f else read path d'
  end.

(** [open(path, 'w')] followed by [json.dump]. *)
Definition write (path : string) (f : file) (d : disk) : disk :=
  (path, f) :: d.

End Store.

(* ================================================================== *)
(** ** pynput keys *)

Module Pynput.

(** What a keyboard listener passes to its callbacks: a [KeyCode] (a
    character key, with its character and virtual-key code, either of which
    may be [None]), a member of the [Key] enumeration, identified by its
    name, or some other object, of which only [str()] is used. *)
Inductive key : Type :=
| KeyCode (char : option string) (vk : option Z)
| Key (name : string)
| Other (str : string).

(** [key == Key.<name>]: only the enumeration member itself is equal to
    it. *)
Definition is_key (k : key) (name : string) : bool :=
  match k with
  | Key n => String.eqb n name
  | _ => false
  end.

End Pynput.

(* ================================================================== *)
(** ** BackgroundRecorder *)

Module BackgroundRecorder.
Import Pynput.

Record t : Type := Build {
  mouse_events : list MouseEvent.t;
  keyboard_events : list KeyboardEvent.t;
  start_time : option Q;
  recording : bool;
  filename : option string;
  last_mouse_position : option (Z * Z);
  record_start_time : option Q;
  total_duration : Q
}.

(** [__init__] *)
Definition init : t :=
  {| mouse_events := []; keyboard_events := []; start_time := None;
     recording := false; filename := None; last_mouse_position := None;
     record_start_time := None; total_duration := 0 |}.

(** What the clocks read when a method runs: [time.perf_counter()],
    [time.time()] and [datetime.now()] formatted by
    [strftime("%Y-%m-%d_%H-%M-%S")] and by [isoformat()]. *)
Record clocks : Type := {
  perf_counter : Q;
  time_time : Q;
  strftime_now : string;
  isoformat_now : string
}.

Definition start_recording (c : clocks) (r : t) : t :=
  if recording r then r
  else
    {| mouse_events := [];
       keyboard_events := [];
       start_time := Some (perf_counter c);
       recording := true;
       filename := Some ("replay_" ++ strftime_now c ++ ".json");
       last_mouse_position := None;
       record_start_time := Some (time_time c);
       total_duration := total_duration r |}.

(** [time.perf_counter() - self.start_time] *)
Definition elapsed (now : Q) (r : t) : result Q :=
  match start_time r with
  | Some t0 => Ok (now - t0)%Q
  | None => Raise TypeError
  end.

Definition save_recording (c : clocks) (name : string) (r : t)
    (d : Store.disk) : Store.disk :=
  Store.write ("routes_out/" ++ name)
    (Store.Json
       {| Store.mouse_events :=
            Some (map Store.asdict_mouse (mouse_events r));
          Store.keyboard_events :=
            Some (map Store.asdict_keyboard (keyboard_events r));
          Store.total_duration := Some (VFloat (total_duration r));
          Store.record_date := Some (VStr (isoformat_now c));
          Store.metadata :=
            Some [ ("mouse_events_count",
                    VInt (Z.of_nat (List.length (mouse_events r))));
                   ("keyboard_events_count",
                    VInt (Z.of_nat (List.length (keyboard_events r))));
                   ("recording_mode", VStr "relative_mouse") ] |})
    d.

Definition stop_recording (c : clocks) (r : t) (d : Store.disk)
    : result (t * Store.disk) :=
  if negb (recording r) then Ok (r, d)
  else
    let r1 :=
      {| mouse_events := mouse_events r;
         keyboard_events := keyboard_events r;
         start_time := start_time r;
         recording := false;
         filename := filename r;
         last_mouse_position := last_mouse_position r;
         record_start_time := record_start_time r;
         total_duration := total_duration r |} in
    dur <- elapsed (perf_counter c) r1 ;;
    let r2 :=
      {| mouse_events := mouse_events r1;
         keyboard_events := keyboard_events r1;
         start_time := start_time r1;
         recording := recording r1;
         filename := filename r1;
         last_mouse_position := last_mouse_position r1;
         record_start_time := record_start_time r1;
         total_duration := dur |} in
    match filename r2 with
    | None => Raise TypeError
    | Some name =>
        let d' := save_recording c name r2 d in
        match record_start_time r2 with
        | None => Raise TypeError
        | Some _ => Ok (r2, d')
        end
    end.

Definition append_mouse (e : MouseEvent.t) (r : t) : t :=
  {| mouse_events := (mouse_events r ++ [e])%list;
     keyboard_events := keyboard_events r;
     start_time := start_time r;
     recording := recording r;
     filename := filename r;
     last_mouse_position := last_mouse_position r;
     record_start_time := record_start_time r;
     total_duration := total_duration r |}.

Definition append_keyboard (e : KeyboardEvent.t) (r : t) : t :=
  {| mouse_events := mouse_events r;
     keyboard_events := (keyboard_events r ++ [e])%list;
     start_time := start_time r;
     recording := recording r;
     filename := filename r;
     last_mouse_position := last_mouse_position r;
     record_start_time := record_start_time r;
     total_duration := total_duration r |}.

Definition set_last_mouse_position (p : Z * Z) (r : t) : t :=
  {| mouse_events := mouse_events r;
     keyboard_events := keyboard_events r;
     start_time := start_time r;
     recording := recording r;
     filename := filename r;
     last_mouse_position := Some p;
     record_start_time := record_start_time r;
     total_duration := total_duration r |}.

Definition move_relative_event (dx dy : Z) (timestamp : Q) : MouseEvent.t :=
  {| MouseEvent.type := "move_relative";
     MouseEvent.x := None; MouseEvent.y := None;
     MouseEvent.button := None; MouseEvent.pressed := None;
     MouseEvent.dx := Some dx; MouseEvent.dy := Some dy;
     MouseEvent.timestamp := Some timestamp |}.

Definition click_event (button : string) (pressed : bool) (timestamp : Q)
    : MouseEvent.t :=
  {| MouseEvent.type := "click";
     MouseEvent.x := None; MouseEvent.y := None;
     MouseEvent.button := Some button; MouseEvent.pressed := Some pressed;
     MouseEvent.dx := None; MouseEvent.dy := None;
     MouseEvent.timestamp := Some timestamp |}.

Definition scroll_event (dx dy : Z) (timestamp : Q) : MouseEvent.t :=
  {| MouseEvent.type := "scroll";
     MouseEvent.x := None; MouseEvent.y := None;
     MouseEvent.button := None; MouseEvent.pressed := None;
     MouseEvent.dx := Some dx; MouseEvent.dy := Some dy;
     MouseEvent.timestamp := Some timestamp |}.

(** [now] is the reading of [time.perf_counter()] in the callback. *)
Definition on_mouse_move (now : Q) (x y : Z) (r : t) : result t :=
  if negb (recording r) then Ok r
  else
    timestamp <- elapsed now r ;;
    let r' :=
      match last_mouse_position r with
      | Some (lx, ly) =>
          let dx := x - lx in
          let dy := y - ly in
          if negb (dx =? 0)%Z || negb (dy =? 0)%Z
          then append_mouse (move_relative_event dx dy timestamp) r
          else r
      | None => r
      end in
    Ok (set_last_mouse_position (x, y) r').

(** [button] is [button.name]. *)
Definition on_mouse_click (now : Q) (x y : Z) (button : string)
    (pressed : bool) (r : t) : result t :=
  if negb (recording r) then Ok r
  else
    timestamp <- elapsed now r ;;
    Ok (append_mouse (click_event button pressed timestamp) r).

Definition on_mouse_scroll (now : Q) (x y dx dy : Z) (r : t) : result t :=
  if negb (recording r) then Ok r
  else
    timestamp <- elapsed now r ;;
    Ok (append_mouse (scroll_event dx dy timestamp) r).

Section KeyNames.
Context {U : Unicode}.

Definition backslash : string := String "092"%char EmptyString.

Definition russian_to_english : list (Z * string) :=
  [ (192, "a"); (193, "b"); (194, "c"); (195, "d"); (196, "e"); (197, "f");
    (198, "g"); (199, "h"); (200, "i"); (201, "j"); (202, "k"); (203, "l");
    (204, "m"); (205, "n"); (206, "o"); (207, "p"); (208, "q"); (209, "r");
    (210, "s"); (211, "t"); (212, "u"); (213, "v"); (214, "w"); (215, "x");
    (216, "y"); (217, "z"); (218, "["); (219, "]"); (220, backslash);
    (221, ";");
    (222, "'"); (223, "`") ].

Fixpoint table_get (k : Z) (tbl : list (Z * string)) : option string :=
  match tbl with
  | [] => None
  | (k', v) :: tbl' => if (k =? k')%Z then Some v else table_get k tbl'
  end.

(** [f"KeyCode({vk})"] *)
Definition keycode_token (vk : option Z) : string :=
  "KeyCode(" ++ match vk with Some n => str_of_int n | None => "None" end
  ++ ")".

(** [key.char] as a condition: neither [None] nor empty. *)
Definition char_truthy (char : option string) : bool :=
  match char with
  | Some s => negb (String.eqb s "")
  | None => false
  end.

(** [_key_to_string] *)
Definition key_to_string (k : key) : result string :=
  match k with
  | KeyCode char vk =>
      let fall_through :=
        match char with
        | Some s => if String.eqb s "" then keycode_token vk else s
        | None => keycode_token vk
        end in
      match char with
      | Some s =>
          if negb (String.eqb s "") && isalpha s then
            match vk with
            | None => Raise TypeError
            | Some vk_code =>
                if (65 <=? vk_code)%Z && (vk_code <=? 90)%Z
                then Ok (lower (chr vk_code))
                else if (192 <=? vk_code)%Z && (vk_code <=? 255)%Z
                then Ok (match table_get vk_code russian_to_english with
                         | Some name => name
                         | None => keycode_token (Some vk_code)
                         end)
                else Ok fall_through
            end
          else Ok fall_through
      | None => Ok fall_through
      end
  | Key name =>
      if String.eqb name "shift" then Ok "shift_l"
      else if String.eqb name "ctrl" then Ok "ctrl_l"
      else if String.eqb name "alt" then Ok "alt_l"
      else Ok name
  | Other str => Ok str
  end.

Definition key_event (type : string) (key : string) (pressed : bool)
    (timestamp : Q) : KeyboardEvent.t :=
  {| KeyboardEvent.type := type;
     KeyboardEvent.key := Some key;
     KeyboardEvent.pressed := Some pressed;
     KeyboardEvent.timestamp := Some timestamp |}.

Definition on_key_press (now : Q) (k : key) (r : t) : result t :=
  if negb (recording r) then Ok r
  else if is_key k "f9" || is_key k "f10" then Ok r
  else
    timestamp <- elapsed now r ;;
    key_str <- key_to_string k ;;
    Ok (append_keyboard (key_event "press" key_str true timestamp) r).

Definition on_key_release (now : Q) (k : key) (r : t) : result t :=
  if negb (recording r) then Ok r
  else if is_key k "f9" || is_key k "f10" then Ok r
  else
    timestamp <- elapsed now r ;;
    key_str <- key_to_string k ;;
    Ok (append_keyboard (key_event "release" key_str false timestamp) r).

End KeyNames.

End BackgroundRecorder.

(* ================================================================== *)
(** ** WinAPI input structures and the machine the player runs on *)

Module Win.

(** ctypes stores an integer into a field without any overflow check. *)
Definition c_long (z : Z) : Z := (z + 2 ^ 31) mod 2 ^ 32 - 2 ^ 31.
Definition c_ulong (z : Z) : Z := z mod 2 ^ 32.
Definition c_ushort (z : Z) : Z := z mod 2 ^ 16.

Record MOUSEINPUT : Type := {
  dx : Z;
  dy : Z;
  mouseData : Z;
  mi_dwFlags : Z;
  mi_time : Z
}.

Record KEYBDINPUT : Type := {
  wVk : Z;
  wScan : Z;
  ki_dwFlags : Z;
  ki_time : Z
}.

(** [INPUT]: the [type] tag with the member of the union it selects. *)
Inductive INPUT : Type :=
| INPUT_MOUSE (mi : MOUSEINPUT)
| INPUT_KEYBOARD (ki : KEYBDINPUT).

Definition mouse_input (dx dy mouseData dwFlags : Z) : INPUT :=
  INPUT_MOUSE {| dx := c_long dx; dy := c_long dy;
                 mouseData := c_ulong mouseData;
                 mi_dwFlags := c_ulong dwFlags; mi_time := c_ulong 0 |}.

Definition keybd_input (wVk wScan dwFlags : Z) : INPUT :=
  INPUT_KEYBOARD {| wVk := c_ushort wVk; wScan := c_ushort wScan;
                    ki_dwFlags := c_ulong dwFlags; ki_time := c_ulong 0 |}.

Definition MOUSEEVENTF_MOVE : Z := 0x0001.
Definition MOUSEEVENTF_LEFTDOWN : Z := 0x0002.
Definition MOUSEEVENTF_LEFTUP : Z := 0x0004.
Definition MOUSEEVENTF_RIGHTDOWN : Z := 0x0008.
Definition MOUSEEVENTF_RIGHTUP : Z := 0x0010.
Definition MOUSEEVENTF_MIDDLEDOWN : Z := 0x0020.
Definition MOUSEEVENTF_MIDDLEUP : Z := 0x0040.
Definition MOUSEEVENTF_WHEEL : Z := 0x0800.
Definition KEYEVENTF_KEYUP : Z := 0x0002.
Definition KEYEVENTF_SCANCODE : Z := 0x0008.

(** The machine: the key map of [user32.MapVirtualKeyA(code, 0)], how long
    a [SendInput] call takes, how long a [time.sleep(d)] really lasts and
    the longest duration [time.sleep] accepts (it raises [OverflowError]
    above it). *)
Class Machine : Type := {
  MapVirtualKeyA : Z -> Z;
  send_input_time : INPUT -> Q;
  sleep_time : Q -> Q;
  sleep_limit : Q
}.

End Win.

(* ================================================================== *)
(** ** IEEE 754 binary64, the interpreter's [float] *)

Module Binary64.
Import PrimFloat.

(** [float(z)]: the double nearest to [z], ties to even, an infinity when
    that is out of range. *)
Definition float_of_int (z : Z) : float :=
  FloatOps.SF2Prim
    (SpecFloat.binary_normalize FloatOps.prec FloatOps.emax z 0 false).

(** The double nearest to [n / d], ties to even. *)
Definition round_quotient (sign : bool) (n d : positive) : float :=
  let '(mz, ez, lz) :=
    SpecFloat.SFdiv_core_binary FloatOps.prec FloatOps.emax
      (Z.pos n) 0 (Z.pos d) 0 in
  FloatOps.SF2Prim
    (SpecFloat.binary_round_aux FloatOps.prec FloatOps.emax sign mz ez lz).

(** The double a decimal literal, or a number of a JSON file, denotes. *)
Definition float_of_Q (q : Q) : float :=
  match Qnum q with
  | Z0 => zero
  | Z.pos n => round_quotient false n (Qden q)
  | Z.neg n => round_quotient true n (Qden q)
  end.

(** The number a finite double stands for. *)
Definition exact (x : float) : option Q :=
  match FloatOps.Prim2SF x with
  | SpecFloat.S754_zero _ => Some 0%Q
  | SpecFloat.S754_finite s m e =>
      let v :=
        if (0 <=? e)%Z then (Z.pos m * 2 ^ e) # 1
        else Z.pos m # Z.to_pos (2 ^ (- e)) in
      Some (if s then Qopp v else v)
  | SpecFloat.S754_infinity _ | SpecFloat.S754_nan => None
  end.

(** [int(x)]: the number truncated toward zero; [OverflowError] for an
    infinity and [ValueError] for NaN. *)
Definition int_of_float (x : float) : result Z :=
  match exact x with
  | Some q => Ok (Py.int_of_float q)
  | None => if is_nan x then Raise ValueError else Raise OverflowError
  end.

(** The operand of [original * self.sensitivity] as a float: an [int] too
    large for a double raises [OverflowError], a string or [None] cannot
    be multiplied by a float. *)
Definition to_float (v : value) : result float :=
  match v with
  | VInt z =>
      let x := float_of_int z in
      if is_infinity x then Raise OverflowError else Ok x
  | VBool b => Ok (float_of_int (if b then 1 else 0))
  | VFloat q => Ok (float_of_Q q)
  | VStr _ | VNone => Raise TypeError
  end.

End Binary64.

(* ================================================================== *)
(** ** The carry accumulator of relative motion *)

Module Accumulator.
Import PrimFloat.

(** The literal [0.8]. *)
Definition lit_0_8 : float := Binary64.float_of_Q (8 # 10).

(** The anti-stall rule of one axis:
    [if d_int == 0 and abs(acc) >= 0.8: d_int = 1 if acc > 0 else -1;
     acc -= d_int]. *)
Definition anti_stall (d_int : Z) (acc : float) : Z * float :=
  if (d_int =? 0)%Z && leb lit_0_8 (abs acc) then
    let d_int' := if ltb zero acc then 1 else -1 in
    (d_int', sub acc (Binary64.float_of_int d_int'))
  else (d_int, acc).

(** From [self.mouse_accumulator_x += dx] to the second anti-stall test:
    the accumulators as they are left and the integer motion, or the
    exception of the [int()] that raised. *)
Definition accumulate (acc : float * float) (dx dy : float)
    : (float * float) * result (Z * Z) :=
  let acc_x := add (fst acc) dx in
  let acc_y := add (snd acc) dy in
  match Binary64.int_of_float acc_x with
  | Raise e => ((acc_x, acc_y), Raise e)
  | Ok dx_int =>
      match Binary64.int_of_float acc_y with
      | Raise e => ((acc_x, acc_y), Raise e)
      | Ok dy_int =>
          let acc_x := sub acc_x (Binary64.float_of_int dx_int) in
          let acc_y := sub acc_y (Binary64.float_of_int dy_int) in
          let '(dx_int, acc_x) := anti_stall dx_int acc_x in
          let '(dy_int, acc_y) := anti_stall dy_int acc_y in
          ((acc_x, acc_y), Ok (dx_int, dy_int))
      end
  end.







End Accumulator.

(* ================================================================== *)
(** ** Effects of the player *)

Module IO.

(** The lines the player prints. *)
Inductive line : Type :=
| Loaded (replay_file : string)
| EventCount (n : nat)
| Duration (total_duration : value)
| RecordDate (record_date : value)
| Sensitivity (sensitivity : PrimFloat.float)
| InputMode
| CooldownWait (cooldown : Q)
| Start
| Progress (events_played total : nat)
| Finished (events_played : nat)
| UnknownKey (key_str : string)
| MouseError (e : exn)
| KeyboardError (key : value) (e : exn).

Inductive action : Type :=
| SendInput (input : Win.INPUT)
| Sleep (seconds : Q)
| Printed (l : line).

(** The monotonic clock and everything done so far, oldest first. *)
Record world : Type := {
  clock : Q;
  trace : list action
}.

Definition is_send (a : action) : bool :=
  match a with SendInput _ => true | _ => false end.

Definition is_sleep (a : action) : bool :=
  match a with Sleep _ => true | _ => false end.

Definition is_unknown_key (a : action) : bool :=
  match a with Printed (UnknownKey _) => true | _ => false end.

Definition is_error (a : action) : bool :=
  match a with
  | Printed (MouseError _) | Printed (KeyboardError _ _) => true
  | _ => false
  end.

(** A sleep that [time.sleep] accepts: a positive duration. *)
Definition positive_sleep (a : action) : Prop :=
  match a with
  | Sleep seconds => (0 < seconds)%Q
  | _ => True
  end.

(** The inputs injected, in order. *)
Fixpoint sends (tr : list action) : list Win.INPUT :=
  match tr with
  | [] => []
  | SendInput input :: tr' => input :: sends tr'
  | _ :: tr' => sends tr'
  end.

(** The pointer motion an input carries on the x axis. *)
Definition motion_x (input : Win.INPUT) : Z :=
  match input with
  | Win.INPUT_MOUSE mi =>
      if (Win.mi_dwFlags mi =? Win.MOUSEEVENTF_MOVE)%Z then Win.dx mi else 0
  | Win.INPUT_KEYBOARD _ => 0
  end.

(** Cumulative injected x motion. *)
Definition injected_x (tr : list action) : Z :=
  fold_right (fun input total => motion_x input + total) 0 (sends tr).

End IO.

(* ================================================================== *)
(** ** GameplayPlayer *)

Module GameplayPlayer.
Import IO.

Record t : Type := Build {
  replay_file : string;
  cooldown : Q;
  sensitivity : PrimFloat.float;
  events : list (string * dict);
  (** [mouse_accumulator_x], [mouse_accumulator_y]; [None] until the
      attributes exist *)
  mouse_accumulator : option (PrimFloat.float * PrimFloat.float)
}.

(** [__init__] *)
Definition init (replay_file : string) (cooldown : Q)
    (sensitivity : PrimFloat.float) : t :=
  {| replay_file := replay_file; cooldown := cooldown;
     sensitivity := sensitivity; events := []; mouse_accumulator := None |}.

Definition set_events (evs : list (string * dict)) (p : t) : t :=
  {| replay_file := replay_file p; cooldown := cooldown p;
     sensitivity := sensitivity p; events := evs;
     mouse_accumulator := mouse_accumulator p |}.

Definition set_mouse_accumulator (acc : PrimFloat.float * PrimFloat.float)
    (p : t) : t :=
  {| replay_file := replay_file p; cooldown := cooldown p;
     sensitivity := sensitivity p; events := events p;
     mouse_accumulator := Some acc |}.

(** A method runs on the player object and the world, and returns or
    raises; what it did before raising stays done. *)
Definition state : Type := t * world.
Definition io (A : Type) : Type := state -> state * result A.

Definition ret {A : Type} (a : A) : io A := fun s => (s, Ok a).

Definition raise {A : Type} (e : exn) : io A := fun s => (s, Raise e).

Definition iobind {A B : Type} (c : io A) (k : A -> io B) : io B :=
  fun s =>
    match c s with
    | (s', Ok a) => k a s'
    | (s', Raise e) => (s', Raise e)
    end.

Definition lift {A : Type} (r : result A) : io A := fun s => (s, r).

(** [try: body except Exception as e: handler(e)] *)
Definition try_except {A : Type} (body : io A) (handler : exn -> io A)
    : io A :=
  fun s =>
    match body s with
    | (s', Ok a) => (s', Ok a)
    | (s', Raise e) => handler e s'
    end.

Definition self : io t := fun s => (s, Ok (fst s)).

Definition update_self (f : t -> t) : io unit :=
  fun s => ((f (fst s), snd s), Ok tt).

Definition print (l : line) : io unit :=
  fun s =>
    ((fst s, {| clock := clock (snd s);
                trace := (trace (snd s) ++ [Printed l])%list |}), Ok tt).

Definition perf_counter : io Q := fun s => (s, Ok (clock (snd s))).

Notation "x <<- c ;; k" := (iobind c (fun x => k))
  (at level 61, c at next level, right associativity).
Notation "c ;;; k" := (iobind c (fun _ => k))
  (at level 61, right associativity).

(** A method keeps a relation between the state it starts in and the state
    it ends in, whether it returns or raises. *)
Definition preserves (R : state -> state -> Prop) {A : Type} (c : io A)
    : Prop :=
  forall s, R s (fst (c s)).

(** The two accumulators, [0.0] each until the attributes exist. *)
Definition accumulators (p : t) : PrimFloat.float * PrimFloat.float :=
  match mouse_accumulator p with
  | Some acc => acc
  | None => (PrimFloat.zero, PrimFloat.zero)
  end.

Section OnMachine.
Context {U : Unicode} {M : Win.Machine}.

(** [time.sleep(seconds)]: a negative duration and one above the limit
    raise before anything is waited for. *)
Definition sleep (seconds : Q) : io unit :=
  fun s =>
    if Qlt_bool seconds 0 then (s, Raise ValueError)
    else if Qlt_bool Win.sleep_limit seconds then (s, Raise OverflowError)
    else
      ((fst s, {| clock := (clock (snd s) + Win.sleep_time seconds)%Q;
                  trace := (trace (snd s) ++ [Sleep seconds])%list |}),
       Ok tt).

(** [user32.SendInput(1, byref(input), sizeof(INPUT))] *)
Definition send_input (input : Win.INPUT) : io unit :=
  fun s =>
    ((fst s, {| clock := (clock (snd s) + Win.send_input_time input)%Q;
                trace := (trace (snd s) ++ [SendInput input])%list |}),
     Ok tt).

(** [user32.MapVirtualKeyA(code, 0)]: ctypes passes an [int] that fits a C
    [long] or [unsigned long] and raises otherwise. *)
Definition map_virtual_key (code : Z) : result Z :=
  if (- 2 ^ 31 <=? code)%Z && (code <? 2 ^ 32)%Z
  then Ok (Win.MapVirtualKeyA (Win.c_ulong code))
  else Raise ArgumentError.

(** *** LowLevelMouseController *)

Definition move_relative (dx dy : Z) : io unit :=
  send_input (Win.mouse_input dx dy 0 Win.MOUSEEVENTF_MOVE).

Definition click (button pressed : value) : io unit :=
  if eq_str button "left" then
    send_input (Win.mouse_input 0 0 0
      (if truthy pressed then Win.MOUSEEVENTF_LEFTDOWN
       else Win.MOUSEEVENTF_LEFTUP))
  else if eq_str button "right" then
    send_input (Win.mouse_input 0 0 0
      (if truthy pressed then Win.MOUSEEVENTF_RIGHTDOWN
       else Win.MOUSEEVENTF_RIGHTUP))
  else if eq_str button "middle" then
    send_input (Win.mouse_input 0 0 0
      (if truthy pressed then Win.MOUSEEVENTF_MIDDLEDOWN
       else Win.MOUSEEVENTF_MIDDLEUP))
  else ret tt.

(** [dy != 0] *)
Definition not_zero (v : value) : bool :=
  match as_number v with
  | Some q => negb (Qeq_bool q 0)
  | None => true
  end.

(** [mouseData=dy * 120]: the product is an [int] for an [int] or a [bool]
    only, and the field takes nothing else. *)
Definition wheel_data (dy : value) : result Z :=
  match dy with
  | VInt z => Ok (z * 120)
  | VBool b => Ok ((if b then 1 else 0) * 120)
  | VFloat _ | VStr _ | VNone => Raise TypeError
  end.

Definition scroll (dx dy : value) : io unit :=
  if not_zero dy then
    data <<- lift (wheel_data dy) ;;
    send_input (Win.mouse_input 0 0 data Win.MOUSEEVENTF_WHEEL)
  else ret tt.

(** *** LowLevelKeyboardController *)

Definition scan_codes : list (string * Z) :=
  [ ("shift_l", 0x2A); ("shift_r", 0x36); ("ctrl_l", 0x1D); ("ctrl_r", 0x1D);
    ("alt_l", 0x38); ("alt_r", 0x38);
    ("a", 0x1E); ("b", 0x30); ("c", 0x2E); ("d", 0x20); ("e", 0x12);
    ("f", 0x21); ("g", 0x22); ("h", 0x23); ("i", 0x17); ("j", 0x24);
    ("k", 0x25); ("l", 0x26); ("m", 0x32); ("n", 0x31); ("o", 0x18);
    ("p", 0x19); ("q", 0x10); ("r", 0x13); ("s", 0x1F); ("t", 0x14);
    ("u", 0x16); ("v", 0x2F); ("w", 0x11); ("x", 0x2D); ("y", 0x15);
    ("z", 0x2C);
    ("0", 0x0B); ("1", 0x02); ("2", 0x03); ("3", 0x04); ("4", 0x05);
    ("5", 0x06); ("6", 0x07); ("7", 0x08); ("8", 0x09); ("9", 0x0A);
    ("space", 0x39); ("enter", 0x1C); ("esc", 0x01); ("tab", 0x0F);
    ("f1", 0x3B); ("f2", 0x3C); ("f3", 0x3D); ("f4", 0x3E); ("f5", 0x3F);
    ("f6", 0x40); ("f7", 0x41); ("f8", 0x42); ("f9", 0x43); ("f10", 0x44);
    ("f11", 0x57); ("f12", 0x58);
    ("up", 0x48); ("down", 0x50); ("left", 0x4B); ("right", 0x4D);
    ("insert", 0x52); ("delete", 0x53); ("home", 0x47); ("end", 0x4F);
    ("page_up", 0x49); ("page_down", 0x51);
    ("backspace", 0x0E); ("caps_lock", 0x3A); ("num_lock", 0x45);
    ("scroll_lock", 0x46) ].

Fixpoint scan_codes_get (k : string) (tbl : list (string * Z)) : option Z :=
  match tbl with
  | [] => None
  | (k', v) :: tbl' => if String.eqb k k' then Some v else scan_codes_get k tbl'
  end.

(** [scan_code if scan_code != 0 else None] *)
Definition nonzero (scan_code : Z) : option Z :=
  if (scan_code =? 0)%Z then None else Some scan_code.

(** [_get_scan_code]; a [key_str] that is not a string has no
    [startswith]. *)
Definition get_scan_code (key_str : value) : io (option Z) :=
  match key_str with
  | VStr s =>
      if String.prefix "KeyCode(" s then
        vk <<- lift (int_of_str (slice_8_m1 s)) ;;
        scan_code <<- lift (map_virtual_key vk) ;;
        ret (nonzero scan_code)
      else
        match scan_codes_get (lower s) scan_codes with
        | Some scan_code => ret (Some scan_code)
        | None =>
            if (len s =? 1)%nat then
              vk_code <<- lift (ord (upper s)) ;;
              scan_code <<- lift (map_virtual_key vk_code) ;;
              ret (nonzero scan_code)
            else
              print (UnknownKey s) ;;;
              ret None
        end
  | _ => raise AttributeError
  end.

(** [_get_vk_code]: the class never sets [self.key_map], so reading it
    raises [AttributeError] for every string that is not a raw-code
    token; what follows that test in the source is never reached. *)
Definition get_vk_code (key_str : value) : io (option Z) :=
  match key_str with
  | VStr s =>
      if String.prefix "KeyCode(" s then
        vk <<- lift (int_of_str (slice_8_m1 s)) ;;
        ret (Some vk)
      else raise AttributeError
  | _ => raise AttributeError
  end.

(** [key_str in ['ctrl_r', 'alt_r']] *)
Definition is_extended (key_str : value) : bool :=
  eq_str key_str "ctrl_r" || eq_str key_str "alt_r".

Definition press_key (key_str : value) : io unit :=
  scan_code <<- get_scan_code key_str ;;
  match scan_code with
  | None => ret tt
  | Some sc =>
      let flags := Win.KEYEVENTF_SCANCODE in
      let flags := if is_extended key_str then Z.lor flags 0x0001 else flags in
      send_input (Win.keybd_input 0 sc flags)
  end.

Definition release_key (key_str : value) : io unit :=
  scan_code <<- get_scan_code key_str ;;
  match scan_code with
  | None => ret tt
  | Some sc =>
      let flags := Z.lor Win.KEYEVENTF_SCANCODE Win.KEYEVENTF_KEYUP in
      let flags := if is_extended key_str then Z.lor flags 0x0001 else flags in
      send_input (Win.keybd_input 0 sc flags)
  end.

(** *** Event handlers *)

(** [original * self.sensitivity] *)
Definition scaled (original : value) (sensitivity : PrimFloat.float)
    : result PrimFloat.float :=
  x <- Binary64.to_float original ;;
  Ok (PrimFloat.mul x sensitivity).

Definition handle_move_relative (event : dict) : io unit :=
  original_dx <<- lift (getitem event "dx") ;;
  original_dy <<- lift (getitem event "dy") ;;
  p <<- self ;;
  dx <<- lift (scaled original_dx (sensitivity p)) ;;
  dy <<- lift (scaled original_dy (sensitivity p)) ;;
  let '(acc', moved) := Accumulator.accumulate (accumulators p) dx dy in
  update_self (set_mouse_accumulator acc') ;;;
  match moved with
  | Raise e => raise e
  | Ok (dx_int, dy_int) =>
      if negb (dx_int =? 0)%Z || negb (dy_int =? 0)%Z
      then move_relative dx_int dy_int
      else ret tt
  end.

(** The body of the [try] of [_handle_mouse_event]. *)
Definition mouse_event_body (event : dict) : io unit :=
  type <<- lift (getitem event "type") ;;
  if eq_str type "move_relative" then handle_move_relative event
  else if eq_str type "click" then
    button <<- lift (getitem event "button") ;;
    pressed <<- lift (getitem event "pressed") ;;
    click button pressed
  else if eq_str type "scroll" then
    dx <<- lift (getitem event "dx") ;;
    dy <<- lift (getitem event "dy") ;;
    scroll dx dy
  else ret tt.

(** [_handle_mouse_event] *)
Definition handle_mouse_event (event : dict) : io unit :=
  try_except (mouse_event_body event)
    (fun e => print (MouseError e)).

(** The body of the [try] of [_handle_keyboard_event]. *)
Definition keyboard_event_body (event : dict) : io unit :=
  pressed <<- lift (getitem event "pressed") ;;
  if truthy pressed then
    key <<- lift (getitem event "key") ;;
    press_key key
  else
    key <<- lift (getitem event "key") ;;
    release_key key.

(** [_handle_keyboard_event]: the message of the handler reads
    [event['key']] again. *)
Definition handle_keyboard_event (event : dict) : io unit :=
  try_except (keyboard_event_body event)
    (fun e =>
       key <<- lift (getitem event "key") ;;
       print (KeyboardError key e)).

(** *** Loading *)

(** [sorted(events, key=...)] compares keys with [<] only and is stable: an
    element goes in front of the first element already placed that is not
    smaller than it. *)
Fixpoint insert_by_key {A : Type} (x : value * A) (placed : list (value * A))
    : result (list (value * A)) :=
  match placed with
  | [] => Ok [x]
  | y :: rest =>
      smaller <- less_than (fst y) (fst x) ;;
      if smaller then
        rest' <- insert_by_key x rest ;;
        Ok (y :: rest')
      else Ok (x :: y :: rest)
  end.

Fixpoint sort_by_key {A : Type} (l : list (value * A))
    : result (list (value * A)) :=
  match l with
  | [] => Ok []
  | x :: l' =>
      placed <- sort_by_key l' ;;
      insert_by_key x placed
  end.

(** The keys are computed for every element before any comparison. *)
Fixpoint with_keys {A : Type} (key : A -> result value) (l : list A)
    : result (list (value * A)) :=
  match l with
  | [] => Ok []
  | x :: l' =>
      k <- key x ;;
      rest <- with_keys key l' ;;
      Ok ((k, x) :: rest)
  end.

Definition sorted {A : Type} (l : list A) (key : A -> result value)
    : result (list A) :=
  keyed <- with_keys key l ;;
  placed <- sort_by_key keyed ;;
  Ok (map snd placed).

(** [lambda x: x[1]['timestamp']] *)
Definition timestamp_key (x : string * dict) : result value :=
  getitem (snd x) "timestamp".

(** [f"{total_duration:.2f}"] formats a number and nothing else. *)
Definition format_2f (v : value) : result value :=
  match v with
  | VInt _ | VFloat _ | VBool _ => Ok v
  | VStr _ => Raise ValueError
  | VNone => Raise TypeError
  end.

(** [data[name]] of a member of the parsed file. *)
Definition member {A : Type} (name : string) (m : option A) : result A :=
  match m with
  | Some a => Ok a
  | None => Raise (KeyError name)
  end.

(** [load_replay]; [files] is what the disk holds. *)
Definition load_replay (files : Store.disk) : io unit :=
  p <<- self ;;
  match Store.read (replay_file p) files with
  | None => raise (FileNotFoundError (replay_file p))
  | Some Store.Unparseable => raise JSONDecodeError
  | Some (Store.Json data) =>
      mouse <<- lift (member "mouse_events" (Store.mouse_events data)) ;;
      keyboard <<-
        lift (member "keyboard_events" (Store.keyboard_events data)) ;;
      let events :=
        (map (pair "mouse") mouse ++ map (pair "keyboard") keyboard)%list in
      ordered <<- lift (sorted events timestamp_key) ;;
      update_self (set_events ordered) ;;;
      print (Loaded (replay_file p)) ;;;
      print (EventCount (List.length ordered)) ;;;
      total <<- lift (member "total_duration" (Store.total_duration data)) ;;
      shown <<- lift (format_2f total) ;;
      print (Duration shown) ;;;
      match Store.record_date data with
      | Some date => print (RecordDate date)
      | None => ret tt
      end ;;;
      print (Sensitivity (sensitivity p)) ;;;
      print InputMode
  end.

(** *** Playing *)

(** Lines 518-522: wait until the event is due. *)
Definition pace (start_time : Q) (event_data : dict) : io unit :=
  now <<- perf_counter ;;
  let current_time := (now - start_time)%Q in
  target_time <<- lift (getitem event_data "timestamp") ;;
  behind <<- lift (less_than (VFloat current_time) target_time) ;;
  if behind then
    match as_number target_time with
    | Some target => sleep (target - current_time)%Q
    | None => raise TypeError
    end
  else ret tt.

(** Lines 524-527: hand the event to its handler. *)
Definition dispatch (event_type : string) (event_data : dict) : io unit :=
  if String.eqb event_type "mouse"
  then handle_mouse_event event_data
  else handle_keyboard_event event_data.

(** Lines 529-532: count the event and report every hundredth. *)
Definition count_event (total events_played : nat) : io nat :=
  let events_played := S events_played in
  (if (events_played mod 100 =? 0)%nat
   then print (Progress events_played total)
   else ret tt) ;;;
  ret events_played.

(** One turn of the [for] loop of [play]; [events_played] and the result
    are the counter before and after the turn. *)
Definition play_event (start_time : Q) (total : nat)
    (event : string * dict) (events_played : nat) : io nat :=
  pace start_time (snd event) ;;;
  dispatch (fst event) (snd event) ;;;
  count_event total events_played.

Fixpoint play_loop (start_time : Q) (total : nat)
    (events : list (string * dict)) (events_played : nat) : io nat :=
  match events with
  | [] => ret events_played
  | event :: rest =>
      events_played <<- play_event start_time total event events_played ;;
      play_loop start_time total rest events_played
  end.

(** Lines 509-512: the pause before the replay starts. *)
Definition pre_roll (cooldown : Q) : io unit :=
  if Qlt_bool 0 cooldown then
    print (CooldownWait cooldown) ;;;
    sleep cooldown ;;;
    print Start
  else ret tt.

(** [play] *)
Definition play (files : Store.disk) : io unit :=
  p <<- self ;;
  match events p with
  | [] => load_replay files
  | _ :: _ => ret tt
  end ;;;
  p <<- self ;;
  pre_roll (cooldown p) ;;;
  start_time <<- perf_counter ;;
  events_played <<-
    play_loop start_time (List.length (events p)) (events p) 0 ;;
  print (Finished events_played).

End OnMachine.

End GameplayPlayer.

(* ================================================================== *)
(** ** The keyboard listener *)

Module KeyboardListener.
Import Pynput BackgroundRecorder.

(** What [KeyboardListener(on_press=..., on_release=...)] delivers, with the
    reading of the monotonic clock at the time of the callback. *)
Inductive notification : Type :=
| Press (now : Q) (k : key)
| Release (now : Q) (k : key).


Section Deliver.
Context {U : Unicode}.

Definition notify (n : notification) (r : t) : result t :=
  match n with
  | Press now k => on_key_press now k r
  | Release now k => on_key_release now k r
  end.

(** The listener thread calls back for each notification in turn; a
    callback that raises stops the listener, and what follows is not
    delivered. *)
Fixpoint deliver (ns : list notification) (r : t) : t :=
  match ns with
  | [] => r
  | n :: ns' =>
      match notify n r with
      | Ok r' => deliver ns' r'
      | Raise _ => r
      end
  end.






End Deliver.

End KeyboardListener.

(* ================================================================== *)
(** ** The mouse listener *)

Module MouseListener.
Import BackgroundRecorder.

(** What [MouseListener(on_move=..., on_click=..., on_scroll=...)]
    delivers, with the reading of the monotonic clock in the callback. *)
Inductive notification : Type :=
| Move (now : Q) (x y : Z)
| Click (now : Q) (x y : Z) (button : string) (pressed : bool)
| Scroll (now : Q) (x y dx dy : Z).

Definition now_of (n : notification) : Q :=
  match n with
  | Move now _ _ | Click now _ _ _ _ | Scroll now _ _ _ _ => now
  end.

Definition notify (n : notification) (r : t) : result t :=
  match n with
  | Move now x y => on_mouse_move now x y r
  | Click now x y button pressed => on_mouse_click now x y button pressed r
  | Scroll now x y dx dy => on_mouse_scroll now x y dx dy r
  end.

(** One listener thread calls back for each notification in turn and
    stops at a callback that raises. *)
Fixpoint deliver (ns : list notification) (r : t) : t :=
  match ns with
  | [] => r
  | n :: ns' =>
      match notify n r with
      | Ok r' => deliver ns' r'
      | Raise _ => r
      end
  end.

(** The time a recorded pointer event carries, 0 when it carries none. *)
Definition stamp (e : MouseEvent.t) : Q :=
  match MouseEvent.timestamp e with
  | Some t0 => t0
  | None => 0%Q
  end.

End MouseListener.

(* ================================================================== *)
(** ** Reading the merged timeline *)

Module Timeline.

(** The number a key stands for, 0 when it is not a number. *)
Definition number_of (v : value) : Q :=
  match as_number v with
  | Some q => q
  | None => 0%Q
  end.

Definition is_number (v : value) : bool :=
  match as_number v with
  | Some _ => true
  | None => false
  end.

(** An event that has a numeric [timestamp]. *)
Definition timed (event : dict) : bool :=
  match lookup "timestamp" event with
  | Some v => is_number v
  | None => false
  end.

Definition timestamp_of (x : string * dict) : Q :=
  match lookup "timestamp" (snd x) with
  | Some v => number_of v
  | None => 0%Q
  end.

Definition is_mouse (x : string * dict) : bool := String.eqb (fst x) "mouse".

Definition is_keyboard (x : string * dict) : bool := negb (is_mouse x).

Definition at_time (t : Q) (x : string * dict) : bool :=
  Qeq_bool (timestamp_of x) t.

(** An entry the loop of [play] gets through whatever its handler meets: a
    numeric timestamp and, for a key entry, a ["key"] member. *)
Definition playable (x : string * dict) : bool :=
  timed (snd x)
  && (is_mouse x
      || match lookup "key" (snd x) with Some _ => true | None => false end).

(** In timestamp order. *)
Definition in_time_order (l : list (string * dict)) : Prop :=
  StronglySorted (fun a b => (timestamp_of a <= timestamp_of b)%Q) l.

(** Stable insertion sort on a rational key. *)
Fixpoint insert_q {A : Type} (k : A -> Q) (x : A) (placed : list A)
    : list A :=
  match placed with
  | [] => [x]
  | y :: rest =>
      if Qlt_bool (k y) (k x) then y :: insert_q k x rest
      else x :: y :: rest
  end.

Fixpoint sort_q {A : Type} (k : A -> Q) (l : list A) : list A :=
  match l with
  | [] => []
  | x :: l' => insert_q k x (sort_q k l')
  end.

End Timeline.

(* ================================================================== *)
(** ** The replay loop as the specification words it *)

Module Schedule.
Import IO GameplayPlayer.

Section OnMachine.
Context {U : Unicode} {M : Win.Machine}.

(** One turn on an entry of the timeline: when the time elapsed since the
    start is less than the entry's time stamp, sleep the difference; hand
    the entry to the handler of its kind; count it. *)
Definition turn (start_time : Q) (total : nat) (x : string * dict)
    (events_played : nat) (s : state) : state :=
  let elapsed := (clock (snd s) - start_time)%Q in
  let target := Timeline.timestamp_of x in
  let waited :=
    if Qlt_bool elapsed target then fst (sleep (target - elapsed) s) else s in
  let handled :=
    if Timeline.is_mouse x then fst (handle_mouse_event (snd x) waited)
    else fst (handle_keyboard_event (snd x) waited) in
  fst (count_event total events_played handled).

(** Every entry gets its turn, once, in the order of the timeline. *)
Fixpoint turns (start_time : Q) (total : nat) (evs : list (string * dict))
    (events_played : nat) (s : state) : state :=
  match evs with
  | [] => s
  | x :: rest =>
      turns start_time total rest (S events_played)
        (turn start_time total x events_played s)
  end.

End OnMachine.

Definition member_is (name : string) (event : dict) (literal : string)
    : bool :=
  match lookup name event with
  | Some v => eq_str v literal
  | None => false
  end.

(** A press or a release of the left button with a numeric time stamp, in
    the pointer stream. *)
Definition left_click (x : string * dict) : bool :=
  Timeline.is_mouse x && Timeline.timed (snd x)
  && member_is "type" (snd x) "click"
  && member_is "button" (snd x) "left"
  && match lookup "pressed" (snd x) with Some _ => true | None => false end.

(** The input such an entry stands for: no motion, flag 2 (left button
    down) when [pressed] is truthy and 4 (left button up) otherwise. *)
Definition left_click_input (x : string * dict) : Win.INPUT :=
  Win.INPUT_MOUSE
    {| Win.dx := 0; Win.dy := 0; Win.mouseData := 0;
       Win.mi_dwFlags :=
         match lookup "pressed" (snd x) with
         | Some v => if truthy v then 2 else 4
         | None => 4
         end;
       Win.mi_time := 0 |}.

End Schedule.

(* ================================================================== *)
(** ** Concrete machines and recordings *)

Module Samples.

(** An interpreter asked about ASCII strings only, except for the Cyrillic
    letter kha (UTF-8 bytes 209 133), which is alphabetic. *)
Definition kha : string := String "209"%char (String "133"%char EmptyString).

#[export] Instance unicode : Unicode := {
  uni_isalpha := fun s => String.eqb s kha;
  uni_lower := fun s => s;
  uni_upper := fun s => s;
  uni_len := fun s => 1%nat;
  uni_ord := fun s => None;
  uni_drop_last := fun s => s;
  uni_int := fun s => None
}.

(** A machine whose injection calls take no time and whose sleeps last
    exactly as long as asked, up to the 2^63 nanoseconds the interpreter
    counts in; its key map knows no key. *)
#[export] Instance instant : Win.Machine := {
  Win.MapVirtualKeyA := fun _ => 0;
  Win.send_input_time := fun _ => 0%Q;
  Win.sleep_time := fun d => d;
  Win.sleep_limit := 9223372036%Q
}.

Definition clocks_at (perf : Q) : BackgroundRecorder.clocks :=
  {| BackgroundRecorder.perf_counter := perf;
     BackgroundRecorder.time_time := 1700000000;
     BackgroundRecorder.strftime_now := "2024-01-02_03-04-05";
     BackgroundRecorder.isoformat_now := "2024-01-02T03:04:05" |}.

(** A recorder that was started at clock reading 10. *)
Definition started : BackgroundRecorder.t :=
  BackgroundRecorder.start_recording (clocks_at 10) BackgroundRecorder.init.

Definition click_at (t : Q) (pressed : bool) : dict :=
  Store.asdict_mouse (BackgroundRecorder.click_event "left" pressed t).

Definition move_at (t : Q) (dx dy : Z) : dict :=
  Store.asdict_mouse (BackgroundRecorder.move_relative_event dx dy t).

Definition scroll_at (t : Q) (dx dy : Z) : dict :=
  Store.asdict_mouse (BackgroundRecorder.scroll_event dx dy t).

Definition key_at (t : Q) (name : string) (pressed : bool) : dict :=
  Store.asdict_keyboard
    (BackgroundRecorder.key_event (if pressed then "press" else "release")
       name pressed t).

Definition recording_of (ms ks : list dict) (duration : Q) : Store.file :=
  Store.Json
    {| Store.mouse_events := Some ms;
       Store.keyboard_events := Some ks;
       Store.total_duration := Some (VFloat duration);
       Store.record_date := Some (VStr "2024-01-02T03:04:05");
       Store.metadata := None |}.

Definition world0 : IO.world := {| IO.clock := 100; IO.trace := [] |}.

(** Two clicks and a move against a key press and release; the first click
    and the key press share the timestamp 1. *)
Definition mixed_mouse : list dict :=
  [ click_at 1 true; click_at (3 # 2) false; move_at 2 4 (- 3) ].

Definition mixed_keyboard : list dict :=
  [ key_at 1 "w" true; key_at 5 "w" false ].

Definition mixed_files : Store.disk :=
  [ ("routes_out/mixed.json", recording_of mixed_mouse mixed_keyboard 5) ].

Definition mixed_player : GameplayPlayer.t :=
  GameplayPlayer.init "routes_out/mixed.json" 0 PrimFloat.one.

(** The same player with two events loaded. *)
Definition loaded_player : GameplayPlayer.t :=
  GameplayPlayer.set_events
    [ ("mouse", click_at 1 true); ("keyboard", key_at 5 "w" false) ]
    mixed_player.

(** A file whose second pointer event has no ["type"]. *)
Definition untyped_files : Store.disk :=
  [ ("routes_out/untyped.json",
     recording_of [ click_at 0 true; [ ("timestamp", VFloat 1) ] ] [] 1) ].

(** A file whose key event has no ["key"], followed by a click. *)
Definition keyless_files : Store.disk :=
  [ ("routes_out/keyless.json",
     recording_of [ click_at 1 true ]
       [ [ ("type", VStr "press"); ("pressed", VBool true);
           ("timestamp", VFloat (1 # 2)) ] ] 1) ].

(** Fifty clicks, one per second, and one key nobody knows. *)
Fixpoint clicks (n : nat) : list dict :=
  match n with
  | O => []
  | S n' =>
      (clicks n'
       ++ [ click_at (inject_Z (Z.of_nat n')) (Nat.even n') ])%list
  end.

Definition fifty_files : Store.disk :=
  [ ("routes_out/fifty.json",
     recording_of (clicks 50) [ key_at 25 "unknown_token_zz" true ] 50) ].

End Samples.

(* ================================================================== *)
(** * Properties *)

(** ** Capture session *)

Section CaptureSession.
Import Pynput BackgroundRecorder KeyboardListener.
Context {U : Unicode}.

(** C9. [start_recording] while recording and [stop_recording] while idle
    change nothing (neither the recorder nor the disk); a start from idle
    empties both event lists, takes the monotonic clock as [start_time],
    names the file after the wall clock and switches to recording. *)
Theorem start_stop_idempotent :
  (forall c r, recording r = true -> start_recording c r = r)
  /\ (forall c r d, recording r = false -> stop_recording c r d = Ok (r, d))
  /\ (forall c r, recording r = false ->
        let r' := start_recording c r in
        mouse_events r' = []
        /\ keyboard_events r' = []
        /\ start_time r' = Some (perf_counter c)
        /\ filename r' = Some ("replay_" ++ strftime_now c ++ ".json")
        /\ recording r' = true).
Proof.
  repeat split.
  - intros c r H. unfold start_recording. now rewrite H.
  - intros c r d H. unfold stop_recording. now rewrite H.
  - unfold start_recording; rewrite H; reflexivity.
  - unfold start_recording; rewrite H; reflexivity.
  - unfold start_recording; rewrite H; reflexivity.
  - unfold start_recording; rewrite H; reflexivity.
  - unfold start_recording; rewrite H; reflexivity.
Qed.

Lemma start_stop_idempotent_witness :
  start_recording (Samples.clocks_at 25) Samples.started = Samples.started
  /\ stop_recording (Samples.clocks_at 25) init [] = Ok (init, [])
  /\ filename (start_recording (Samples.clocks_at 10) init)
     = Some "replay_2024-01-02_03-04-05.json".
Proof.
  destruct start_stop_idempotent as (Hstart & Hstop & Hfresh).
  split; [ apply Hstart; reflexivity | ].
  split; [ apply Hstop; reflexivity | ].
  apply (Hfresh (Samples.clocks_at 10) init). reflexivity.
Defined.

(** C5. While recording, a pointer sample always becomes the new baseline;
    a sample that has no baseline before it appends nothing; a later sample
    appends one [move_relative] event carrying the delta from the previous
    sample and the time since the start exactly when that delta is not
    (0, 0); and a sample repeating the position of the previous one appends
    nothing.  A start from idle leaves no baseline, whatever position the
    recorder remembered: the first sample after it appends nothing, and
    the second is measured against the first. *)
Theorem on_mouse_move_spec (now t0 : Q) (x y : Z) (r : t) :
  recording r = true ->
  start_time r = Some t0 ->
  (exists r',
     on_mouse_move now x y r = Ok r'
     /\ last_mouse_position r' = Some (x, y)
     /\ recording r' = true
     /\ start_time r' = Some t0
     /\ keyboard_events r' = keyboard_events r
     /\ match last_mouse_position r with
        | None => mouse_events r' = mouse_events r
        | Some (lx, ly) =>
            if (x - lx =? 0)%Z && (y - ly =? 0)%Z
            then mouse_events r' = mouse_events r
            else mouse_events r'
                 = (mouse_events r
                    ++ [ {| MouseEvent.type := "move_relative";
                            MouseEvent.x := None; MouseEvent.y := None;
                            MouseEvent.button := None;
                            MouseEvent.pressed := None;
                            MouseEvent.dx := Some (x - lx);
                            MouseEvent.dy := Some (y - ly);
                            MouseEvent.timestamp := Some (now - t0)%Q |} ])%list
        end
     /\ forall now', exists r'',
          on_mouse_move now' x y r' = Ok r''
          /\ mouse_events r'' = mouse_events r')
  /\ (forall c r0,
        recording r0 = false ->
        exists r1,
          on_mouse_move now x y (start_recording c r0) = Ok r1
          /\ mouse_events r1 = []
          /\ last_mouse_position r1 = Some (x, y)
          /\ forall now' x' y', exists r2,
               on_mouse_move now' x' y' r1 = Ok r2
               /\ mouse_events r2
                  = if (x' - x =? 0)%Z && (y' - y =? 0)%Z then []
                    else [ {| MouseEvent.type := "move_relative";
                              MouseEvent.x := None; MouseEvent.y := None;
                              MouseEvent.button := None;
                              MouseEvent.pressed := None;
                              MouseEvent.dx := Some (x' - x);
                              MouseEvent.dy := Some (y' - y);
                              MouseEvent.timestamp :=
                                Some (now' - perf_counter c)%Q |} ]).
Proof.
  intros Hrec Ht0. split.
  - assert (Hagain : forall r1 now',
               recording r1 = true -> start_time r1 = Some t0 ->
               exists r'',
                 on_mouse_move now' x y (set_last_mouse_position (x, y) r1)
                 = Ok r''
                 /\ mouse_events r''
                    = mouse_events (set_last_mouse_position (x, y) r1)).
    { intros r1 now' H1 H2. unfold on_mouse_move, elapsed. cbn.
      rewrite H1, H2. cbn. rewrite !Z.sub_diag. cbn.
      eexists. split; reflexivity. }
    unfold on_mouse_move, elapsed. rewrite Hrec, Ht0. cbn [negb bind].
    destruct (last_mouse_position r) as [[lx ly] | ] eqn:Hlast.
    + destruct (x - lx =? 0)%Z eqn:Hx, (y - ly =? 0)%Z eqn:Hy;
        cbn [negb orb andb];
        (eexists; split; [ reflexivity | ]);
        (repeat split; try assumption; try reflexivity);
        intros now'; apply Hagain; assumption.
    + eexists; split; [ reflexivity | ].
      repeat split; try assumption; try reflexivity.
      intros now'; apply Hagain; assumption.
  - intros c r0 Hidle. unfold start_recording. rewrite Hidle.
    unfold on_mouse_move, elapsed. cbn.
    eexists. split; [ reflexivity | ]. cbn.
    split; [ reflexivity | ]. split; [ reflexivity | ].
    intros now' x' y'.
    destruct (x' - x =? 0)%Z, (y' - y =? 0)%Z; cbn;
      eexists; split; reflexivity.
Qed.

Lemma on_mouse_move_spec_witness :
  (exists r',
     on_mouse_move 11 5 7 Samples.started = Ok r'
     /\ last_mouse_position r' = Some (5, 7)
     /\ mouse_events r' = [])
  /\ exists r1 r2,
       on_mouse_move 11 5 7 (start_recording (Samples.clocks_at 10) init)
       = Ok r1
       /\ on_mouse_move 12 6 7 r1 = Ok r2
       /\ List.length (mouse_events r2) = 1%nat.
Proof.
  destruct (on_mouse_move_spec 11 10 5 7 Samples.started eq_refl eq_refl)
    as ((r' & Hrun & Hlast & _ & _ & _ & Hmouse & _) & Hstart).
  split.
  - exists r'. repeat split; assumption.
  - destruct (Hstart (Samples.clocks_at 10) init eq_refl)
      as (r1 & Hrun1 & _ & _ & Hnext).
    destruct (Hnext 12%Q 6 7) as (r2 & Hrun2 & Hmouse2).
    exists r1, r2. repeat split; try assumption.
    rewrite Hmouse2. reflexivity.
Defined.




End CaptureSession.



(** ** Key canonicalization *)

Section KeyCanonicalization.
Import Pynput BackgroundRecorder.
Context {U : Unicode}.

Lemma Z_range_cases (lo : Z) (n : nat) (P : Z -> Prop) :
  (forall k : nat, (k < n)%nat -> P (lo + Z.of_nat k)) ->
  forall z, lo <= z < lo + Z.of_nat n -> P z.
Proof.
  intros H z Hz.
  replace z with (lo + Z.of_nat (Z.to_nat (z - lo))) by lia.
  apply H. lia.
Qed.

Lemma isalpha_not_empty (c : string) : isalpha c = true -> c <> "".
Proof. intros H ->. discriminate H. Qed.

(** What [_key_to_string] does with a character key whose character is
    alphabetic. *)
Lemma key_to_string_alpha (c : string) (vk : Z) :
  isalpha c = true ->
  key_to_string (KeyCode (Some c) (Some vk))
  = if (65 <=? vk)%Z && (vk <=? 90)%Z then Ok (lower (chr vk))
    else if (192 <=? vk)%Z && (vk <=? 255)%Z
    then Ok (match table_get vk russian_to_english with
             | Some name => name
             | None => keycode_token (Some vk)
             end)
    else Ok c.
Proof.
  intros Hc. pose proof (isalpha_not_empty c Hc) as Hne.
  apply String.eqb_neq in Hne.
  unfold key_to_string. rewrite Hne, Hc. cbn [negb andb].
  reflexivity.
Qed.

(** The name of the Latin letter key with virtual-key code [vk]. *)
Lemma latin_letter_name (vk : Z) :
  65 <= vk <= 90 -> lower (chr vk) = chr (vk + 32).
Proof.
  intros H. pattern vk. apply (Z_range_cases 65 26); [ | lia ].
  intros k Hk.
  do 26 (destruct k as [ | k]; [ reflexivity | ]). lia.
Qed.

(** C7, as the code has it.  For a character key with an alphabetic
    character: a code from 192 to 217 gets the lowercase Latin letter that
    the Latin-layout key with code [vk - 127] (65 to 90) gets; the codes 218
    to 223 get the six punctuation names of the table; the codes 224 to 255,
    which the table does not list, get the raw-code token. *)
Theorem secondary_layout_names (c : string) (vk : Z) :
  isalpha c = true ->
  (192 <= vk <= 217 ->
   65 <= vk - 127 <= 90
   /\ key_to_string (KeyCode (Some c) (Some vk)) = Ok (chr (vk - 95))
   /\ forall c', isalpha c' = true ->
        key_to_string (KeyCode (Some c) (Some vk))
        = key_to_string (KeyCode (Some c') (Some (vk - 127))))
  /\ (218 <= vk <= 223 ->
      key_to_string (KeyCode (Some c) (Some vk))
      = Ok (nth (Z.to_nat (vk - 218))
              [ "["; "]"; backslash; ";"; "'"; "`" ] ""))
  /\ (224 <= vk <= 255 ->
      table_get vk russian_to_english = None
      /\ key_to_string (KeyCode (Some c) (Some vk))
         = Ok ("KeyCode(" ++ str_of_int vk ++ ")")).
Proof.
  intros Hc. rewrite (key_to_string_alpha c vk Hc).
  split; [ | split ].
  - intros Hvk. split; [ lia | ].
    assert (Hname :
      (if (65 <=? vk)%Z && (vk <=? 90)%Z then Ok (lower (chr vk))
       else if (192 <=? vk)%Z && (vk <=? 255)%Z
       then Ok (match table_get vk russian_to_english with
                | Some name => name
                | None => keycode_token (Some vk)
                end)
       else Ok c) = Ok (chr (vk - 95))).
    { pattern vk. apply (Z_range_cases 192 26); [ | lia ].
      intros k Hk.
      do 26 (destruct k as [ | k]; [ reflexivity | ]). lia. }
    split; [ exact Hname | ].
    intros c' Hc'. rewrite Hname, (key_to_string_alpha c' _ Hc').
    replace ((65 <=? vk - 127)%Z && (vk - 127 <=? 90)%Z) with true by lia.
    rewrite latin_letter_name by lia.
    do 2 f_equal. lia.
  - intros Hvk. pattern vk. apply (Z_range_cases 218 6); [ | lia ].
    intros k Hk.
    do 6 (destruct k as [ | k]; [ reflexivity | ]). lia.
  - intros Hvk. pattern vk. apply (Z_range_cases 224 32); [ | lia ].
    intros k Hk.
    do 32 (destruct k as [ | k]; [ split; reflexivity | ]). lia.
Qed.

End KeyCanonicalization.

Lemma secondary_layout_names_witness :
  BackgroundRecorder.key_to_string (U := Samples.unicode)
    (Pynput.KeyCode (Some Samples.kha) (Some 200)) = Ok "i"
  /\ BackgroundRecorder.key_to_string (U := Samples.unicode)
       (Pynput.KeyCode (Some Samples.kha) (Some 240)) = Ok "KeyCode(240)".
Proof.
  destruct (secondary_layout_names (U := Samples.unicode) Samples.kha 200
              eq_refl) as (Hletter & _ & _).
  destruct (secondary_layout_names (U := Samples.unicode) Samples.kha 240
              eq_refl) as (_ & _ & Hraw).
  split.
  - apply Hletter. lia.
  - apply Hraw. lia.
Defined.

(** C7, as stated, fails at code 218: the key is alphabetic (Cyrillic kha)
    and its code lies in the secondary range, the table has an entry for
    it, yet the name it gets is a bracket, which no Latin letter key (codes
    65 to 90) gets, and it is not the raw-code token either. *)
Lemma secondary_layout_counterexample :
  isalpha (U := Samples.unicode) Samples.kha = true
  /\ 192 <= 218 <= 255
  /\ BackgroundRecorder.key_to_string (U := Samples.unicode)
       (Pynput.KeyCode (Some Samples.kha) (Some 218)) = Ok "["
  /\ BackgroundRecorder.table_get 218 BackgroundRecorder.russian_to_english
     = Some "["
  /\ (forall c' vk',
        isalpha (U := Samples.unicode) c' = true ->
        65 <= vk' <= 90 ->
        BackgroundRecorder.key_to_string (U := Samples.unicode)
          (Pynput.KeyCode (Some c') (Some vk')) <> Ok "[")
  /\ BackgroundRecorder.keycode_token (Some 218) <> "[".
Proof.
  split; [ reflexivity | ]. split; [ lia | ].
  split; [ reflexivity | ]. split; [ reflexivity | ].
  split; [ | discriminate ].
  intros c' vk' Hc' Hvk'.
  rewrite (key_to_string_alpha c' vk' Hc').
  replace ((65 <=? vk')%Z && (vk' <=? 90)%Z) with true by lia.
  rewrite latin_letter_name by assumption.
  pattern vk'. apply (Z_range_cases 65 26); [ | lia ].
  intros k Hk.
  do 26 (destruct k as [ | k]; [ discriminate | ]). lia.
Qed.

(** ** Replay engine *)

Section Replay.
Import IO GameplayPlayer.
Context {U : Unicode} {M : Win.Machine}.

Lemma Qeq_bool_inject_Z_0 (z : Z) : Qeq_bool (inject_Z z) 0 = (z =? 0)%Z.
Proof. unfold Qeq_bool. cbn. now rewrite Z.mul_1_r. Qed.

Lemma c_long_of_c_ulong (z : Z) :
  - 2 ^ 31 <= z < 2 ^ 31 -> Win.c_long (Win.c_ulong z) = z.
Proof.
  intros Hz. unfold Win.c_long, Win.c_ulong.
  rewrite Zplus_mod_idemp_l.
  rewrite Z.mod_small by lia. lia.
Qed.

(** C10. A replayed scroll event injects one wheel input whose amount is
    [dy * 120] (stored in the unsigned 32-bit [mouseData], which reads back
    as [dy * 120] as a signed number), whatever [dx] is; when [dy] is 0
    nothing is injected, whatever [dx] is. *)
Theorem scroll_vertical_only (dx : value) (dy : Z) (s : state) :
  let wheel :=
    Win.INPUT_MOUSE
      {| Win.dx := 0; Win.dy := 0; Win.mouseData := (dy * 120) mod 2 ^ 32;
         Win.mi_dwFlags := 0x0800; Win.mi_time := 0 |} in
  scroll dx (VInt dy) s
  = (if (dy =? 0)%Z then (s, Ok tt) else send_input wheel s)
  /\ (forall dx', scroll dx' (VInt dy) s = scroll dx (VInt dy) s)
  /\ (forall event,
        lookup "type" event = Some (VStr "scroll") ->
        lookup "dx" event = Some dx ->
        lookup "dy" event = Some (VInt dy) ->
        handle_mouse_event event s = scroll dx (VInt dy) s)
  /\ (- 2 ^ 31 <= dy * 120 < 2 ^ 31 ->
      Win.c_long (Win.mouseData
                    {| Win.dx := 0; Win.dy := 0;
                       Win.mouseData := (dy * 120) mod 2 ^ 32;
                       Win.mi_dwFlags := 0x0800; Win.mi_time := 0 |})
      = dy * 120).
Proof.
  intros wheel.
  assert (Hscroll : forall dx0,
            scroll dx0 (VInt dy) s
            = (if (dy =? 0)%Z then (s, Ok tt) else send_input wheel s)).
  { intros dx0. unfold scroll, not_zero. cbn [as_number].
    rewrite Qeq_bool_inject_Z_0.
    destruct (dy =? 0)%Z; reflexivity. }
  split; [ apply Hscroll | ].
  split; [ intros dx'; now rewrite !Hscroll | ].
  split.
  - intros event Htype Hdx Hdy.
    unfold handle_mouse_event, try_except, mouse_event_body, iobind, lift,
      getitem.
    rewrite Htype. cbn [eq_str String.eqb Ascii.eqb Bool.eqb].
    rewrite Hdx, Hdy. rewrite !Hscroll.
    destruct (dy =? 0)%Z; reflexivity.
  - intros Hrange. cbn [Win.mouseData].
    apply (c_long_of_c_ulong (dy * 120) Hrange).
Qed.

(** *** The stable sort of [load_replay] *)

Section StableSort.
Import Timeline.
Context {A : Type} (k : A -> Q).

Let le_k (a b : A) : Prop := (k a <= k b)%Q.

Lemma Qlt_bool_false (x y : Q) : Qlt_bool x y = false <-> (y <= x)%Q.
Proof.
  unfold Qlt_bool. rewrite negb_false_iff. apply Qle_bool_iff.
Qed.

Lemma Qlt_bool_true (x y : Q) : Qlt_bool x y = true <-> (x < y)%Q.
Proof.
  unfold Qlt_bool. rewrite negb_true_iff.
  split.
  - intros H. apply Qnot_le_lt. intros Hle.
    apply Qle_bool_iff in Hle. congruence.
  - intros H. destruct (Qle_bool y x) eqn:E; [ | reflexivity ].
    apply Qle_bool_iff in E. exfalso. apply (Qlt_not_le _ _ H E).
Qed.

Lemma insert_q_perm (x : A) (l : list A) :
  Permutation (insert_q k x l) (x :: l).
Proof.
  induction l as [ | y rest IH]; cbn [insert_q]; [ reflexivity | ].
  destruct (Qlt_bool (k y) (k x)); [ | reflexivity ].
  rewrite IH. apply perm_swap.
Qed.

Lemma sort_q_perm (l : list A) : Permutation (sort_q k l) l.
Proof.
  induction l as [ | x l IH]; cbn [sort_q]; [ reflexivity | ].
  rewrite insert_q_perm. now constructor.
Qed.

Lemma insert_q_sorted (x : A) (l : list A) :
  StronglySorted le_k l -> StronglySorted le_k (insert_q k x l).
Proof.
  induction 1 as [ | y rest Hrest IH Hy]; cbn [insert_q].
  - repeat constructor.
  - destruct (Qlt_bool (k y) (k x)) eqn:E.
    + constructor; [ exact IH | ].
      eapply Permutation_Forall; [ symmetry; apply insert_q_perm | ].
      constructor; [ | exact Hy ].
      apply Qlt_bool_true in E. apply Qlt_le_weak, E.
    + apply Qlt_bool_false in E.
      constructor; [ now constructor | ].
      constructor; [ exact E | ].
      eapply Forall_impl; [ | exact Hy ].
      intros z Hz. unfold le_k in *. eapply Qle_trans; eassumption.
Qed.

Lemma sort_q_sorted (l : list A) : StronglySorted le_k (sort_q k l).
Proof.
  induction l as [ | x l IH]; cbn [sort_q]; [ constructor | ].
  now apply insert_q_sorted.
Qed.

(** Inserting an element leaves the elements it does not select where
    they are, and an element selected goes in front of the selected ones
    that are not smaller. *)
Lemma filter_insert_q_out (P : A -> bool) (x : A) (l : list A) :
  P x = false -> filter P (insert_q k x l) = filter P l.
Proof.
  intros Hx. induction l as [ | y rest IH]; cbn [insert_q filter].
  - now rewrite Hx.
  - destruct (Qlt_bool (k y) (k x)); cbn [filter].
    + now rewrite IH.
    + now rewrite Hx.
Qed.

Lemma filter_insert_q_in (P : A -> bool) (x : A) (l : list A) :
  P x = true ->
  Forall (le_k x) (filter P l) ->
  filter P (insert_q k x l) = x :: filter P l.
Proof.
  intros Hx. induction l as [ | y rest IH]; cbn [insert_q filter]; intros Hle.
  - now rewrite Hx.
  - destruct (Qlt_bool (k y) (k x)) eqn:E; cbn [filter]; rewrite ?Hx.
    + destruct (P y) eqn:Hy.
      * exfalso. inversion Hle as [ | ? ? Hxy _]; subst.
        apply Qlt_bool_true in E. apply (Qlt_not_le _ _ E Hxy).
      * now apply IH.
    + reflexivity.
Qed.

(** Stability: the elements a predicate selects keep their relative order
    whenever they were in key order already. *)
Lemma sort_q_stable (P : A -> bool) (l : list A) :
  StronglySorted le_k (filter P l) ->
  filter P (sort_q k l) = filter P l.
Proof.
  induction l as [ | x l IH]; cbn [sort_q filter]; [ reflexivity | ].
  destruct (P x) eqn:Hx; intros Hs.
  - inversion Hs as [ | ? ? Hs' Hle]; subst.
    rewrite filter_insert_q_in; rewrite ?IH; auto.
  - rewrite filter_insert_q_out by assumption. now apply IH.
Qed.

Lemma equal_keys_sorted (t : Q) (l : list A) :
  Forall (fun a => (k a == t)%Q) l -> StronglySorted le_k l.
Proof.
  induction 1 as [ | x l Hx Hl IH]; constructor; [ exact IH | ].
  eapply Forall_impl; [ | exact Hl ].
  intros y Hy. unfold le_k. rewrite Hx, Hy. apply Qle_refl.
Qed.

(** Ties keep their original order. *)
Lemma sort_q_ties (t : Q) (l : list A) :
  filter (fun a => Qeq_bool (k a) t) (sort_q k l)
  = filter (fun a => Qeq_bool (k a) t) l.
Proof.
  apply sort_q_stable. apply (equal_keys_sorted t).
  apply Forall_forall. intros a Ha.
  apply filter_In in Ha. now apply Qeq_bool_iff.
Qed.

End StableSort.

Section Merge.
Import Timeline.

Lemma sort_q_map {A B : Type} (f : A -> B) (k : B -> Q) (l : list A) :
  sort_q k (map f l) = map f (sort_q (fun a => k (f a)) l).
Proof.
  assert (Hins : forall x placed,
            insert_q k (f x) (map f placed)
            = map f (insert_q (fun a => k (f a)) x placed)).
  { intros x placed. induction placed as [ | y rest IH]; cbn; [ easy | ].
    destruct (Qlt_bool (k (f y)) (k (f x))); cbn; now rewrite ?IH. }
  induction l as [ | x l IH]; cbn [sort_q map]; [ reflexivity | ].
  now rewrite IH, Hins.
Qed.

Lemma sort_q_ext {A : Type} (k k' : A -> Q) (l : list A) :
  (forall a, k a = k' a) -> sort_q k l = sort_q k' l.
Proof.
  intros Hk.
  assert (Hins : forall x placed, insert_q k x placed = insert_q k' x placed).
  { intros x placed. induction placed as [ | y rest IH]; cbn; [ easy | ].
    now rewrite !Hk, IH. }
  induction l as [ | x l IH]; cbn [sort_q]; [ reflexivity | ].
  now rewrite IH, Hins.
Qed.

Lemma less_than_numbers (a b : value) :
  is_number a = true -> is_number b = true ->
  less_than a b = Ok (Qlt_bool (number_of a) (number_of b)).
Proof.
  unfold is_number, number_of, less_than.
  destruct (as_number a), (as_number b); easy.
Qed.

Lemma insert_by_key_numbers {A : Type} (x : value * A)
    (placed : list (value * A)) :
  is_number (fst x) = true ->
  Forall (fun y => is_number (fst y) = true) placed ->
  insert_by_key x placed
  = Ok (insert_q (fun y => number_of (fst y)) x placed).
Proof.
  intros Hx. induction 1 as [ | y rest Hy Hrest IH]; cbn; [ reflexivity | ].
  rewrite (less_than_numbers _ _ Hy Hx). cbn [bind].
  destruct (Qlt_bool _ _); [ | reflexivity ].
  now rewrite IH.
Qed.

Lemma sort_by_key_numbers {A : Type} (l : list (value * A)) :
  Forall (fun y => is_number (fst y) = true) l ->
  sort_by_key l = Ok (sort_q (fun y => number_of (fst y)) l).
Proof.
  induction 1 as [ | x l Hx Hl IH]; cbn [sort_by_key sort_q];
    [ reflexivity | ].
  rewrite IH. cbn [bind].
  apply insert_by_key_numbers; [ exact Hx | ].
  eapply Permutation_Forall; [ symmetry; apply sort_q_perm | exact Hl ].
Qed.

(** The value under ["timestamp"], [None] when there is none. *)
Let stamp (x : string * dict) : value :=
  match lookup "timestamp" (snd x) with
  | Some v => v
  | None => VNone
  end.

Lemma with_keys_timed (l : list (string * dict)) :
  Forall (fun x => timed (snd x) = true) l ->
  with_keys timestamp_key l = Ok (map (fun x => (stamp x, x)) l).
Proof.
  induction 1 as [ | x l Hx Hl IH]; cbn [with_keys map]; [ reflexivity | ].
  unfold timestamp_key at 1, getitem, stamp at 1.
  unfold timed in Hx.
  destruct (lookup "timestamp" (snd x)); [ | discriminate ].
  cbn [bind]. now rewrite IH.
Qed.

(** On events that all carry a numeric timestamp, [sorted] is the stable
    sort on that number. *)
Lemma sorted_timed (l : list (string * dict)) :
  Forall (fun x => timed (snd x) = true) l ->
  sorted l timestamp_key = Ok (sort_q timestamp_of l).
Proof.
  intros Hl. unfold sorted. rewrite (with_keys_timed l Hl). cbn [bind].
  rewrite sort_by_key_numbers.
  - cbn [bind]. rewrite sort_q_map, map_map. cbn [snd fst].
    rewrite map_id. f_equal. apply sort_q_ext.
    intros x. unfold stamp, timestamp_of.
    destruct (lookup "timestamp" (snd x)); reflexivity.
  - apply Forall_map. eapply Forall_impl; [ | exact Hl ].
    intros x Hx. cbn [fst]. unfold timed in Hx. unfold stamp.
    destruct (lookup "timestamp" (snd x)); [ exact Hx | discriminate ].
Qed.

Lemma tagged_timed (ms ks : list dict) :
  Forall (fun e => timed e = true) (ms ++ ks) ->
  Forall (fun x => timed (snd x) = true)
    (map (pair "mouse") ms ++ map (pair "keyboard") ks).
Proof.
  intros H. apply Forall_app in H as [Hm Hk].
  apply Forall_app; split; apply Forall_map; assumption.
Qed.

Lemma filter_mouse_tagged (ms ks : list dict) :
  filter is_mouse (map (pair "mouse") ms ++ map (pair "keyboard") ks)
  = map (pair "mouse") ms
  /\ filter is_keyboard (map (pair "mouse") ms ++ map (pair "keyboard") ks)
     = map (pair "keyboard") ks.
Proof.
  rewrite !filter_app. split.
  - replace (filter is_mouse (map (pair "keyboard") ks)) with
      (@nil (string * dict)).
    + rewrite app_nil_r. induction ms; cbn; congruence.
    + induction ks; cbn; congruence.
  - replace (filter is_keyboard (map (pair "mouse") ms)) with
      (@nil (string * dict)).
    + cbn [app]. induction ks; cbn; congruence.
    + induction ms; cbn; congruence.
Qed.

(** In a list of pointer entries followed by key entries, whatever follows
    a key entry is a key entry. *)
Lemma after_a_key (mice keys before after : list (string * dict))
    (x : string * dict) :
  Forall (fun y => is_mouse y = true) mice ->
  Forall (fun y => is_mouse y = false) keys ->
  (mice ++ keys)%list = (before ++ x :: after)%list ->
  is_mouse x = false ->
  Forall (fun y => is_mouse y = false) after.
Proof.
  intros Hmice Hkeys. revert before.
  induction Hmice as [ | m mice Hm Hmice IH]; intros before Heq Hx.
  - cbn [app] in Heq. subst keys.
    apply Forall_app in Hkeys as [_ Hkeys].
    now inversion Hkeys.
  - destruct before as [ | b before]; cbn [app] in Heq;
      injection Heq as Hhead Htail.
    + subst x. congruence.
    + now apply (IH before).
Qed.

(** What [load_replay] leaves in [self.events]. *)
Lemma load_replay_events (files : Store.disk) (p : t) (w : world)
    (data : Store.replay_data) (ms ks : list dict) :
  Store.read (replay_file p) files = Some (Store.Json data) ->
  Store.mouse_events data = Some ms ->
  Store.keyboard_events data = Some ks ->
  Forall (fun e => timed e = true) (ms ++ ks) ->
  events (fst (fst (load_replay files (p, w))))
  = sort_q timestamp_of (map (pair "mouse") ms ++ map (pair "keyboard") ks).
Proof.
  intros Hread Hms Hks Htimed.
  unfold load_replay, iobind, self. cbn [fst snd].
  rewrite Hread, Hms, Hks. cbn [member lift].
  rewrite (sorted_timed _ (tagged_timed ms ks Htimed)).
  unfold update_self, print. cbn [fst snd].
  destruct (Store.total_duration data) as [ [ | b | z | q | str] | ];
    cbn [member format_2f fst snd]; try reflexivity;
    destruct (Store.record_date data); reflexivity.
Qed.

(** C3. Loading merges the pointer stream and the key stream into one
    sequence that holds exactly their events, in timestamp order; events
    with the same timestamp keep the order they had in "pointer stream, then
    key stream", so that no pointer event comes after a key event of the
    same timestamp; and each stream recorded in timestamp order is found
    again in its own order. *)
Theorem load_replay_merges (files : Store.disk) (p : t) (w : world)
    (data : Store.replay_data) (ms ks : list dict) :
  Store.read (replay_file p) files = Some (Store.Json data) ->
  Store.mouse_events data = Some ms ->
  Store.keyboard_events data = Some ks ->
  Forall (fun e => timed e = true) (ms ++ ks) ->
  let merged := events (fst (fst (load_replay files (p, w)))) in
  Permutation merged (map (pair "mouse") ms ++ map (pair "keyboard") ks)
  /\ in_time_order merged
  /\ (forall t0,
        filter (at_time t0) merged
        = (filter (at_time t0) (map (pair "mouse") ms)
           ++ filter (at_time t0) (map (pair "keyboard") ks))%list)
  /\ (forall before x after,
        merged = (before ++ x :: after)%list ->
        is_mouse x = false ->
        forall y, In y after -> is_mouse y = true ->
        ~ (timestamp_of y == timestamp_of x)%Q)
  /\ (in_time_order (map (pair "mouse") ms) ->
      filter is_mouse merged = map (pair "mouse") ms)
  /\ (in_time_order (map (pair "keyboard") ks) ->
      filter is_keyboard merged = map (pair "keyboard") ks).
Proof.
  intros Hread Hms Hks Htimed merged.
  assert (Hmerged :
    merged
    = sort_q timestamp_of
        (map (pair "mouse") ms ++ map (pair "keyboard") ks))
    by (apply (load_replay_events files p w data); assumption).
  clearbody merged. subst merged.
  set (input := (map (pair "mouse") ms ++ map (pair "keyboard") ks)%list).
  assert (Hties : forall t0,
    filter (at_time t0) (sort_q timestamp_of input)
    = (filter (at_time t0) (map (pair "mouse") ms)
       ++ filter (at_time t0) (map (pair "keyboard") ks))%list).
  { intros t0. unfold at_time.
    rewrite (sort_q_ties timestamp_of t0 input).
    apply filter_app. }
  destruct (filter_mouse_tagged ms ks) as [Hfm Hfk]. fold input in Hfm, Hfk.
  split; [ apply sort_q_perm | ].
  split; [ apply sort_q_sorted | ].
  split; [ exact Hties | ].
  split; [ | split ].
  - intros before x after Hsplit Hx y Hy Hmouse Hsame.
    pose proof (Hties (timestamp_of x)) as Ht.
    rewrite Hsplit, filter_app in Ht. cbn [filter] in Ht.
    assert (Hxx : at_time (timestamp_of x) x = true)
      by (apply Qeq_bool_iff; reflexivity).
    rewrite Hxx in Ht. symmetry in Ht.
    apply after_a_key in Ht; [ | | | exact Hx ].
    + rewrite Forall_forall in Ht.
      specialize (Ht y). rewrite Hmouse in Ht.
      assert (In y (filter (at_time (timestamp_of x)) after)); [ | auto ].
      { apply filter_In. split; [ exact Hy | ].
        now apply Qeq_bool_iff. }
      discriminate Ht; assumption.
    + apply Forall_forall. intros z Hz. apply filter_In in Hz as [Hz _].
      apply in_map_iff in Hz as (e & <- & _). reflexivity.
    + apply Forall_forall. intros z Hz. apply filter_In in Hz as [Hz _].
      apply in_map_iff in Hz as (e & <- & _). reflexivity.
  - intros Hsorted. transitivity (filter is_mouse input); [ | exact Hfm ].
    apply sort_q_stable. rewrite Hfm. exact Hsorted.
  - intros Hsorted. transitivity (filter is_keyboard input); [ | exact Hfk ].
    apply sort_q_stable. rewrite Hfk. exact Hsorted.
Qed.

End Merge.

(** *** Relations every step of a method keeps *)

Section Preserving.
Variable R : state -> state -> Prop.
Hypothesis R_refl : forall s, R s s.
Hypothesis R_trans : forall s1 s2 s3, R s1 s2 -> R s2 s3 -> R s1 s3.

Lemma preserves_ret {A : Type} (a : A) : preserves R (ret a).
Proof. intros s. apply R_refl. Qed.

Lemma preserves_raise {A : Type} (e : exn) : preserves R (@raise A e).
Proof. intros s. apply R_refl. Qed.

Lemma preserves_lift {A : Type} (r : result A) : preserves R (lift r).
Proof. intros s. apply R_refl. Qed.

Lemma preserves_self : preserves R self.
Proof. intros s. apply R_refl. Qed.

Lemma preserves_perf_counter : preserves R perf_counter.
Proof. intros s. apply R_refl. Qed.

Lemma preserves_bind {A B : Type} (c : io A) (k : A -> io B) :
  preserves R c -> (forall a, preserves R (k a)) -> preserves R (iobind c k).
Proof.
  intros Hc Hk s. unfold iobind. specialize (Hc s).
  destruct (c s) as [s' [a | e]]; cbn [fst] in *; [ | exact Hc ].
  eapply R_trans; [ exact Hc | apply Hk ].
Qed.

Lemma preserves_try {A : Type} (body : io A) (handler : exn -> io A) :
  preserves R body -> (forall e, preserves R (handler e)) ->
  preserves R (try_except body handler).
Proof.
  intros Hb Hh s. unfold try_except. specialize (Hb s).
  destruct (body s) as [s' [a | e]]; cbn [fst] in *; [ exact Hb | ].
  eapply R_trans; [ exact Hb | apply Hh ].
Qed.

End Preserving.

(** Breaks a method into its steps; what is left are the primitive
    effects. *)
Ltac preserves_steps Rr Rt :=
  repeat
    match goal with
    | |- preserves _ (iobind _ _) =>
        apply (preserves_bind _ Rt); [ | intros ? ]
    | |- preserves _ (try_except _ _) =>
        apply (preserves_try _ Rt); [ | intros ? ]
    | |- preserves _ (ret _) => apply (preserves_ret _ Rr)
    | |- preserves _ (raise _) => apply (preserves_raise _ Rr)
    | |- preserves _ (lift _) => apply (preserves_lift _ Rr)
    | |- preserves _ self => apply (preserves_self _ Rr)
    | |- preserves _ perf_counter => apply (preserves_perf_counter _ Rr)
    | |- preserves _ (if ?b then _ else _) => destruct b
    | |- preserves _ (match ?x with _ => _ end) => destruct x
    | |- preserves _ (let '(_, _) := ?x in _) => destruct x
    end.

Lemma sends_app (tr1 tr2 : list action) :
  sends (tr1 ++ tr2) = (sends tr1 ++ sends tr2)%list.
Proof.
  induction tr1 as [ | a tr1 IH]; cbn [sends app]; [ reflexivity | ].
  destruct a; cbn [app]; now rewrite IH.
Qed.

(** Loading injects nothing, whether it returns or raises. *)
Lemma load_replay_sends_nothing (files : Store.disk) (s : state) :
  sends (trace (snd (fst (load_replay files s)))) = sends (trace (snd s)).
Proof.
  set (R := fun s s' : state =>
              sends (trace (snd s')) = sends (trace (snd s))).
  assert (R_refl : forall s, R s s) by (intros; reflexivity).
  assert (R_trans : forall s1 s2 s3, R s1 s2 -> R s2 s3 -> R s1 s3)
    by (unfold R; intros; congruence).
  assert (Hprint : forall l, preserves R (print l)).
  { intros l s0. unfold R, print. cbn [fst snd trace].
    rewrite sends_app. cbn. apply app_nil_r. }
  assert (Hupd : forall f, preserves R (update_self f))
    by (intros f s0; reflexivity).
  change (R s (fst (load_replay files s))). revert s.
  change (preserves R (load_replay files)).
  unfold load_replay. preserves_steps R_refl R_trans; auto.
Qed.

(** When the load raises, [play] raises the same exception from the same
    state. *)
Lemma play_load_raises (files : Store.disk) (s s' : state) (e : exn) :
  events (fst s) = [] ->
  load_replay files s = (s', Raise e) ->
  play files s = (s', Raise e).
Proof.
  intros Hev Hload. unfold play, iobind, self. cbn [fst snd].
  rewrite Hev, Hload. reflexivity.
Qed.

Lemma with_keys_untimed (l : list (string * dict)) :
  Exists (fun x => lookup "timestamp" (snd x) = None) l ->
  exists e, with_keys timestamp_key l = Raise e.
Proof.
  induction 1 as [x l Hx | x l Hl IH]; cbn [with_keys];
    unfold timestamp_key at 1, getitem.
  - rewrite Hx. cbn [bind]. eauto.
  - destruct (lookup "timestamp" (snd x)); cbn [bind]; [ | eauto ].
    destruct IH as [e ->]. cbn [bind]. eauto.
Qed.

(** C4, as the code has it.  A file that does not exist makes [play] raise
    [FileNotFoundError], a file that does not parse [JSONDecodeError], and a
    parsed file without its ["mouse_events"], ["keyboard_events"] or
    ["total_duration"] member, or with an event without ["timestamp"], makes
    it raise as well; whenever the load raises, [play] raises the same
    exception and no input has been injected.  (Other members of an event
    are not looked at when loading.) *)
Theorem load_failures_precede_injection (files : Store.disk) (p : t)
    (w : world) :
  events p = [] ->
  (forall s' e,
     load_replay files (p, w) = (s', Raise e) ->
     play files (p, w) = (s', Raise e)
     /\ sends (trace (snd s')) = sends (trace w))
  /\ (Store.read (replay_file p) files = None ->
      load_replay files (p, w)
      = ((p, w), Raise (FileNotFoundError (replay_file p))))
  /\ (Store.read (replay_file p) files = Some Store.Unparseable ->
      load_replay files (p, w) = ((p, w), Raise JSONDecodeError))
  /\ (forall data,
        Store.read (replay_file p) files = Some (Store.Json data) ->
        (Store.mouse_events data = None
         \/ Store.keyboard_events data = None
         \/ Store.total_duration data = None
         \/ (exists ms ks,
               Store.mouse_events data = Some ms
               /\ Store.keyboard_events data = Some ks
               /\ Exists (fun e => lookup "timestamp" e = None)
                    (ms ++ ks))) ->
        exists e, snd (load_replay files (p, w)) = Raise e).
Proof.
  intros Hev. split; [ | split; [ | split ] ].
  - intros s' e Hload. split.
    + now apply play_load_raises.
    + pose proof (load_replay_sends_nothing files (p, w)) as H.
      now rewrite Hload in H.
  - intros Hread. unfold load_replay, iobind, self. cbn [fst snd].
    now rewrite Hread.
  - intros Hread. unfold load_replay, iobind, self. cbn [fst snd].
    now rewrite Hread.
  - intros data Hread Hmissing.
    unfold load_replay, iobind, self. cbn [fst snd]. rewrite Hread.
    destruct (Store.mouse_events data) as [ms | ] eqn:Hms;
      cbn [member lift snd]; [ | eauto ].
    destruct (Store.keyboard_events data) as [ks | ] eqn:Hks;
      cbn [member lift snd]; [ | eauto ].
    destruct (sorted _ timestamp_key) as [ordered | e] eqn:Hsorted;
      cbn [snd]; [ | eauto ].
    destruct Hmissing as [ | [ | [Hdur | (ms' & ks' & [= <-] & [= <-] & Hex)]]];
      try discriminate.
    + rewrite Hdur. unfold update_self, print. cbn. eauto.
    + exfalso. unfold sorted in Hsorted.
      destruct (with_keys_untimed
                  (map (pair "mouse") ms ++ map (pair "keyboard") ks))
        as [e He].
      * apply Exists_app. apply Exists_app in Hex as [Hex | Hex];
          [ left | right ]; apply Exists_exists;
          apply Exists_exists in Hex as (d & Hin & Hd).
        -- exists ("mouse", d). split; [ apply in_map, Hin | exact Hd ].
        -- exists ("keyboard", d). split; [ apply in_map, Hin | exact Hd ].
      * rewrite He in Hsorted. discriminate.
Qed.

(** *** The event loop *)

(** The pointer handler catches whatever its body raises. *)
Lemma handle_mouse_event_returns (event : dict) (s : state) :
  snd (handle_mouse_event event s) = Ok tt.
Proof.
  unfold handle_mouse_event, try_except.
  destruct (mouse_event_body event s) as [s' [[] | e]]; reflexivity.
Qed.

(** So does the key handler, as long as it can read the key for its
    message. *)
Lemma handle_keyboard_event_returns (event : dict) (s : state) :
  lookup "key" event <> None ->
  snd (handle_keyboard_event event s) = Ok tt.
Proof.
  intros Hkey. unfold handle_keyboard_event, try_except.
  destruct (keyboard_event_body event s) as [s' [[] | e]]; [ reflexivity | ].
  unfold iobind, lift, getitem.
  destruct (lookup "key" event); [ reflexivity | contradiction ].
Qed.

Lemma dispatch_returns (x : string * dict) (s : state) :
  Timeline.playable x = true ->
  snd (dispatch (fst x) (snd x) s) = Ok tt.
Proof.
  unfold Timeline.playable, Timeline.is_mouse, dispatch.
  intros H. apply andb_prop in H as [_ H].
  destruct (String.eqb (fst x) "mouse").
  - apply handle_mouse_event_returns.
  - apply handle_keyboard_event_returns. cbn [orb] in H.
    destruct (lookup "key" (snd x)); [ discriminate | discriminate H ].
Qed.

Lemma count_event_returns (total k : nat) (s : state) :
  snd (count_event total k s) = Ok (S k)
  /\ clock (snd (fst (count_event total k s))) = clock (snd s)
  /\ fst (fst (count_event total k s)) = fst s
  /\ sends (trace (snd (fst (count_event total k s))))
     = sends (trace (snd s)).
Proof.
  unfold count_event, iobind.
  destruct (S k mod 100 =? 0)%nat; cbn; repeat split.
  rewrite sends_app. cbn. apply app_nil_r.
Qed.

Lemma play_loop_app (start_time : Q) (total : nat)
    (l1 l2 : list (string * dict)) (k : nat) (s : state) :
  play_loop start_time total (l1 ++ l2) k s
  = iobind (play_loop start_time total l1 k)
      (play_loop start_time total l2) s.
Proof.
  revert k s. induction l1 as [ | x l1 IH]; intros k s; cbn [play_loop app].
  - reflexivity.
  - unfold iobind in *.
    destruct (play_event start_time total x k s) as [s' [k' | e]];
      [ apply IH | reflexivity ].
Qed.

Section Cadence.
Hypothesis send_takes_time : forall input, (0 <= Win.send_input_time input)%Q.
Hypothesis sleep_long_enough : forall d, (d <= Win.sleep_time d)%Q.

Let later (s s' : state) : Prop := (clock (snd s) <= clock (snd s'))%Q.

Lemma later_refl (s : state) : later s s.
Proof. apply Qle_refl. Qed.

Lemma later_trans (s1 s2 s3 : state) : later s1 s2 -> later s2 s3 -> later s1 s3.
Proof. apply Qle_trans. Qed.

(** The clock never runs backwards while an event is handled. *)
Lemma dispatch_later (event_type : string) (event : dict) :
  preserves later (dispatch event_type event).
Proof.
  assert (Hprint : forall l, preserves later (print l))
    by (intros l s; apply Qle_refl).
  assert (Hupd : forall f, preserves later (update_self f))
    by (intros f s; apply Qle_refl).
  assert (Hsend : forall input, preserves later (send_input input)).
  { intros input s. unfold later, send_input. cbn [fst snd clock].
    pose proof (send_takes_time input). lra. }
  unfold dispatch, handle_mouse_event, mouse_event_body,
    handle_move_relative, click, scroll, move_relative,
    handle_keyboard_event, keyboard_event_body, press_key, release_key,
    get_scan_code.
  preserves_steps later_refl later_trans; auto.
Qed.

(** A duration that [time.sleep] accepts is slept. *)
Lemma sleep_returns (d : Q) (s : state) :
  (0 <= d)%Q -> (d <= Win.sleep_limit)%Q ->
  sleep d s
  = ((fst s, {| clock := (clock (snd s) + Win.sleep_time d)%Q;
                trace := (trace (snd s) ++ [Sleep d])%list |}), Ok tt).
Proof.
  intros H0 Hlim. unfold sleep.
  assert (E1 : Qlt_bool d 0 = false) by (apply Qlt_bool_false; exact H0).
  assert (E2 : Qlt_bool Win.sleep_limit d = false)
    by (apply Qlt_bool_false; exact Hlim).
  rewrite E1, E2. reflexivity.
Qed.

Lemma pace_spec (start_time : Q) (event : dict) (v : value) (target : Q)
    (s : state) :
  lookup "timestamp" event = Some v ->
  as_number v = Some target ->
  let elapsed := (clock (snd s) - start_time)%Q in
  pace start_time event s
  = (if Qlt_bool elapsed target then sleep (target - elapsed) s
     else (s, Ok tt))
  /\ ((target - elapsed <= Win.sleep_limit)%Q ->
      pace start_time event s
      = (if Qlt_bool elapsed target
         then ((fst s,
                {| clock :=
                     (clock (snd s) + Win.sleep_time (target - elapsed))%Q;
                   trace :=
                     (trace (snd s) ++ [Sleep (target - elapsed)])%list |}),
               Ok tt)
         else (s, Ok tt))
      /\ later s (fst (pace start_time event s))
      /\ (target
          <= clock (snd (fst (pace start_time event s))) - start_time)%Q).
Proof.
  intros Hv Hnum elapsed.
  assert (Heq : pace start_time event s
                = (if Qlt_bool elapsed target then sleep (target - elapsed) s
                   else (s, Ok tt))).
  { unfold pace, iobind, perf_counter, lift, getitem. rewrite Hv.
    unfold less_than. cbn [as_number]. rewrite Hnum.
    fold elapsed. destruct (Qlt_bool elapsed target); reflexivity. }
  split; [ exact Heq | ]. intros Hlim. rewrite Heq. unfold later.
  destruct (Qlt_bool elapsed target) eqn:E.
  - apply Qlt_bool_true in E.
    rewrite sleep_returns by (unfold elapsed in *; lra).
    cbn [fst snd clock].
    pose proof (sleep_long_enough (target - elapsed)).
    unfold elapsed in *. repeat split; lra.
  - apply Qlt_bool_false in E. cbn [fst snd].
    unfold elapsed in *. repeat split; lra.
Qed.

Lemma playable_timestamp (x : string * dict) :
  Timeline.playable x = true ->
  exists v,
    lookup "timestamp" (snd x) = Some v
    /\ as_number v = Some (Timeline.timestamp_of x).
Proof.
  unfold Timeline.playable, Timeline.timed, Timeline.timestamp_of,
    Timeline.is_number, Timeline.number_of.
  intros H. apply andb_prop in H as [H _].
  destruct (lookup "timestamp" (snd x)) as [v | ]; [ | discriminate ].
  exists v. destruct (as_number v); [ now split | discriminate ].
Qed.

(** The loop's turn on a playable entry that is due within the limit of
    [time.sleep] is the turn of the specification. *)
Lemma play_event_playable (start_time : Q) (total : nat)
    (x : string * dict) (k : nat) (s : state) :
  Timeline.playable x = true ->
  (Timeline.timestamp_of x <= Win.sleep_limit)%Q ->
  (start_time <= clock (snd s))%Q ->
  play_event start_time total x k s
  = (Schedule.turn start_time total x k s, Ok (S k))
  /\ later s (Schedule.turn start_time total x k s)
  /\ (Timeline.timestamp_of x
      <= clock (snd (Schedule.turn start_time total x k s)) - start_time)%Q.
Proof.
  intros Hx Hlim Hstart.
  destruct (playable_timestamp x Hx) as (v & Hv & Hnum).
  destruct (pace_spec start_time (snd x) v _ s Hv Hnum) as (Heq & Hret).
  destruct Hret as (_ & Hlater1 & Hdue); [ lra | ].
  assert (Hwaited :
    fst (pace start_time (snd x) s)
    = if Qlt_bool (clock (snd s) - start_time) (Timeline.timestamp_of x)
      then fst (sleep (Timeline.timestamp_of x
                       - (clock (snd s) - start_time)) s)
      else s).
  { rewrite Heq. now destruct (Qlt_bool _ _). }
  assert (Hok1 : snd (pace start_time (snd x) s) = Ok tt).
  { rewrite Heq. destruct (Qlt_bool _ _) eqn:E; [ | reflexivity ].
    apply Qlt_bool_true in E. rewrite sleep_returns by lra. reflexivity. }
  unfold play_event, iobind, Schedule.turn. rewrite <- Hwaited.
  destruct (pace start_time (snd x) s) as [s1 r1]. cbn [fst snd] in *.
  subst r1.
  pose proof (dispatch_returns x s1 Hx) as Hok2.
  pose proof (dispatch_later (fst x) (snd x) s1) as Hlater2.
  assert (Hhandled :
    fst (dispatch (fst x) (snd x) s1)
    = if Timeline.is_mouse x then fst (handle_mouse_event (snd x) s1)
      else fst (handle_keyboard_event (snd x) s1)).
  { unfold dispatch, Timeline.is_mouse.
    now destruct (String.eqb (fst x) "mouse"). }
  rewrite <- Hhandled.
  destruct (dispatch (fst x) (snd x) s1) as [s2 r2]. cbn [fst snd] in *.
  subst r2.
  destruct (count_event_returns total k s2) as (Hok3 & Hclock3 & _).
  destruct (count_event total k s2) as [s3 r3]. cbn [fst snd] in *.
  subst r3. unfold later in *.
  split; [ reflexivity | ]. rewrite Hclock3. split; lra.
Qed.

Lemma play_loop_playable (start_time : Q) (total : nat)
    (evs : list (string * dict)) (k : nat) (s : state) :
  Forall (fun x => Timeline.playable x = true) evs ->
  Forall (fun x => (Timeline.timestamp_of x <= Win.sleep_limit)%Q) evs ->
  (start_time <= clock (snd s))%Q ->
  play_loop start_time total evs k s
  = (Schedule.turns start_time total evs k s, Ok (k + List.length evs)%nat)
  /\ later s (Schedule.turns start_time total evs k s)
  /\ forall x, In x evs ->
       (Timeline.timestamp_of x
        <= clock (snd (Schedule.turns start_time total evs k s))
           - start_time)%Q.
Proof.
  intros Hall. revert k s.
  induction Hall as [ | x evs Hx Hall IH]; intros k s Hlim Hstart;
    cbn [play_loop Schedule.turns].
  - rewrite Nat.add_0_r. repeat split; [ apply later_refl | ].
    intros x [].
  - inversion Hlim as [ | ? ? Hlx Hlrest ]; subst.
    destruct (play_event_playable start_time total x k s Hx Hlx Hstart)
      as (Hrun & Hlater1 & Hdue1).
    unfold iobind. rewrite Hrun.
    assert (Hstart1 :
      (start_time
       <= clock (snd (Schedule.turn start_time total x k s)))%Q)
      by (unfold later in Hlater1; lra).
    destruct (IH (S k) _ Hlrest Hstart1) as (Hloop & Hlater2 & Hdue2).
    rewrite Hloop. cbn [List.length].
    rewrite Nat.add_succ_r. split; [ reflexivity | ].
    split; [ eapply later_trans; eassumption | ].
    intros y [<- | Hy]; [ | now apply Hdue2 ].
    unfold later in Hlater2. lra.
Qed.

(** Loading reads no clock and waits for nothing. *)
Lemma load_replay_clock (files : Store.disk) (s : state) :
  clock (snd (fst (load_replay files s))) = clock (snd s).
Proof.
  set (R := fun s s' : state => clock (snd s') = clock (snd s)).
  assert (R_refl : forall s, R s s) by (intros; reflexivity).
  assert (R_trans : forall s1 s2 s3, R s1 s2 -> R s2 s3 -> R s1 s3)
    by (unfold R; intros; congruence).
  assert (Hprint : forall l, preserves R (print l))
    by (intros l s0; reflexivity).
  assert (Hupd : forall f, preserves R (update_self f))
    by (intros f s0; reflexivity).
  change (R s (fst (load_replay files s))). revert s.
  change (preserves R (load_replay files)).
  unfold load_replay. preserves_steps R_refl R_trans; auto.
Qed.

(** The handler of a left click injects the one input it stands for. *)
Lemma turn_left_click (start_time : Q) (total : nat) (x : string * dict)
    (k : nat) (s : state) :
  Schedule.left_click x = true ->
  sends (trace (snd (Schedule.turn start_time total x k s)))
  = (sends (trace (snd s)) ++ [Schedule.left_click_input x])%list.
Proof.
  unfold Schedule.left_click, Schedule.member_is, Schedule.left_click_input.
  intros H.
  apply andb_prop in H as [H Hpressed].
  apply andb_prop in H as [H Hbutton].
  apply andb_prop in H as [H Htype].
  apply andb_prop in H as [Hmouse _].
  destruct (lookup "type" (snd x)) as [ty | ] eqn:Ety; [ | discriminate ].
  destruct (lookup "button" (snd x)) as [bu | ] eqn:Ebu; [ | discriminate ].
  destruct (lookup "pressed" (snd x)) as [pr | ] eqn:Epr; [ | discriminate ].
  destruct ty as [ | | | | ty]; try discriminate.
  destruct bu as [ | | | | bu]; try discriminate.
  cbn [eq_str] in Htype, Hbutton.
  apply String.eqb_eq in Htype, Hbutton. subst ty bu.
  unfold Schedule.turn. rewrite Hmouse.
  set (waited := if Qlt_bool _ _ then _ else s).
  assert (Hwaited : sends (trace (snd waited)) = sends (trace (snd s))).
  { unfold waited. destruct (Qlt_bool _ _); [ | reflexivity ].
    unfold sleep.
    destruct (Qlt_bool _ 0); [ reflexivity | ].
    destruct (Qlt_bool Win.sleep_limit _); [ reflexivity | ].
    cbn [fst snd trace]. rewrite sends_app. apply app_nil_r. }
  destruct (count_event_returns total k
              (fst (handle_mouse_event (snd x) waited)))
    as (_ & _ & _ & Hsends).
  rewrite Hsends, <- Hwaited.
  unfold handle_mouse_event, try_except, mouse_event_body, iobind, lift,
    getitem.
  rewrite Ety, Ebu, Epr.
  cbn [eq_str String.eqb Ascii.eqb Bool.eqb click].
  unfold send_input.
  destruct (truthy pr); cbn [fst snd trace]; rewrite sends_app; reflexivity.
Qed.

Lemma left_click_playable (x : string * dict) :
  Schedule.left_click x = true -> Timeline.playable x = true.
Proof.
  unfold Schedule.left_click, Timeline.playable. intros H.
  apply andb_prop in H as [H _].
  apply andb_prop in H as [H _].
  apply andb_prop in H as [H _].
  apply andb_prop in H as [Hmouse Htimed].
  now rewrite Hmouse, Htimed.
Qed.

(** C8. An event that is not yet due is preceded by a sleep of exactly the
    time left, one that is due or overdue by none, and either way it is
    handled no earlier than its time stamp (as long as the time left is one
    [time.sleep] accepts).  For a timeline whose entries have a numeric
    time stamp within that limit (and whose key entries have a key, see
    C1), the loop gives every entry, in order, exactly one turn: the wait,
    the handler of its kind, the count.  [play], on events it has or events
    it loads, runs these turns after the cooldown and prints the count;
    when it returns every time stamp has elapsed on the clock since the
    call.  On a timeline of left clicks the inputs injected are, one for
    one and in order, those of its entries. *)
Theorem replay_keeps_cadence :
  (forall start_time event v target s,
     lookup "timestamp" event = Some v ->
     as_number v = Some target ->
     let elapsed := (clock (snd s) - start_time)%Q in
     pace start_time event s
     = (if Qlt_bool elapsed target then sleep (target - elapsed) s
        else (s, Ok tt))
     /\ ((target - elapsed <= Win.sleep_limit)%Q ->
         pace start_time event s
         = (if Qlt_bool elapsed target
            then ((fst s,
                   {| clock :=
                        (clock (snd s)
                         + Win.sleep_time (target - elapsed))%Q;
                      trace :=
                        (trace (snd s)
                         ++ [Sleep (target - elapsed)])%list |}),
                  Ok tt)
            else (s, Ok tt))
         /\ (target
             <= clock (snd (fst (pace start_time event s)))
                - start_time)%Q))
  /\ (forall start_time total evs k s,
        Forall (fun x => Timeline.playable x = true) evs ->
        Forall (fun x => (Timeline.timestamp_of x <= Win.sleep_limit)%Q)
          evs ->
        (start_time <= clock (snd s))%Q ->
        play_loop start_time total evs k s
        = (Schedule.turns start_time total evs k s,
           Ok (k + List.length evs)%nat)
        /\ forall x, In x evs ->
             (Timeline.timestamp_of x
              <= clock (snd (Schedule.turns start_time total evs k s))
                 - start_time)%Q)
  /\ (forall files p w s1,
        (events p <> [] /\ s1 = (p, w))
        \/ (events p = [] /\ load_replay files (p, w) = (s1, Ok tt)) ->
        Forall (fun x => Timeline.playable x = true) (events (fst s1)) ->
        Forall (fun x => (Timeline.timestamp_of x <= Win.sleep_limit)%Q)
          (events (fst s1)) ->
        (cooldown (fst s1) <= Win.sleep_limit)%Q ->
        let s2 := fst (pre_roll (cooldown (fst s1)) s1) in
        let n := List.length (events (fst s1)) in
        play files (p, w)
        = print (Finished n)
            (Schedule.turns (clock (snd s2)) n (events (fst s1)) 0 s2)
        /\ forall x, In x (events (fst s1)) ->
             (Timeline.timestamp_of x
              <= clock (snd (fst (play files (p, w)))) - clock w)%Q)
  /\ (forall start_time total evs k s,
        Forall (fun x => Schedule.left_click x = true) evs ->
        Forall (fun x => (Timeline.timestamp_of x <= Win.sleep_limit)%Q)
          evs ->
        (start_time <= clock (snd s))%Q ->
        exists s',
          play_loop start_time total evs k s
          = (s', Ok (k + List.length evs)%nat)
          /\ sends (trace (snd s'))
             = (sends (trace (snd s))
                ++ map Schedule.left_click_input evs)%list).
Proof.
  split; [ | split; [ | split ] ].
  - intros start_time event v target s Hv Hnum elapsed.
    destruct (pace_spec start_time event v target s Hv Hnum)
      as (Heq & Hret).
    split; [ exact Heq | ]. intros Hlim.
    destruct (Hret Hlim) as (Heq' & _ & Hdue). split; assumption.
  - intros start_time total evs k s Hall Hlim Hstart.
    destruct (play_loop_playable start_time total evs k s Hall Hlim Hstart)
      as (Hrun & _ & Hdue).
    split; assumption.
  - intros files p w s1 Hs1 Hall Hlim Hcool s2 n.
    assert (Hload :
      match events p with
      | [] => load_replay files
      | _ :: _ => ret tt
      end (p, w) = (s1, Ok tt)).
    { destruct Hs1 as [[Hne ->] | [Hnil Hrun]].
      - destruct (events p); [ contradiction | reflexivity ].
      - rewrite Hnil. exact Hrun. }
    assert (Hclock1 : clock (snd s1) = clock w).
    { destruct Hs1 as [[_ ->] | [_ Hrun]]; [ reflexivity | ].
      pose proof (load_replay_clock files (p, w)) as H.
      rewrite Hrun in H. exact H. }
    assert (Hroll : pre_roll (cooldown (fst s1)) s1 = (s2, Ok tt)
                    /\ (clock (snd s1) <= clock (snd s2))%Q
                    /\ fst s2 = fst s1).
    { unfold s2, pre_roll. destruct (Qlt_bool 0 (cooldown (fst s1))) eqn:E.
      - apply Qlt_bool_true in E. unfold iobind, print. cbn [fst snd].
        rewrite sleep_returns by (cbn [fst snd]; lra).
        cbn [fst snd clock].
        pose proof (sleep_long_enough (cooldown (fst s1))).
        repeat split; lra.
      - cbn [ret fst snd]. repeat split. apply Qle_refl. }
    destruct Hroll as (Hroll & Hclock2 & Hp2).
    destruct (play_loop_playable (clock (snd s2)) n (events (fst s1)) 0 s2
                Hall Hlim (Qle_refl _)) as (Hrun & _ & Hdue).
    assert (Hplay :
      play files (p, w)
      = print (Finished n)
          (Schedule.turns (clock (snd s2)) n (events (fst s1)) 0 s2)).
    { unfold play. unfold iobind at 1. unfold self at 1. cbn [fst snd].
      unfold iobind at 1. rewrite Hload.
      unfold iobind at 1. unfold self at 1. cbn [fst snd].
      unfold iobind at 1. rewrite Hroll.
      unfold iobind at 1. unfold perf_counter at 1. cbn [fst snd].
      unfold iobind at 1. fold n. rewrite Hrun. reflexivity. }
    split; [ exact Hplay | ].
    intros y Hy. rewrite Hplay. cbn [print fst snd clock].
    specialize (Hdue y Hy). rewrite <- Hclock1. lra.
  - intros start_time total evs k s Hall Hlim Hstart.
    assert (Hplayable : Forall (fun x => Timeline.playable x = true) evs).
    { eapply Forall_impl; [ | exact Hall ].
      intros x Hx. now apply left_click_playable. }
    destruct (play_loop_playable start_time total evs k s Hplayable Hlim
                Hstart) as (Hrun & _ & _).
    eexists. split; [ exact Hrun | ].
    clear Hrun Hplayable Hlim Hstart. revert k s.
    induction Hall as [ | x evs Hx Hall IH]; intros k s;
      cbn [Schedule.turns map].
    + now rewrite app_nil_r.
    + rewrite IH, (turn_left_click _ _ _ _ _ Hx), <- app_assoc.
      reflexivity.
Qed.

End Cadence.

(** *** The carry accumulator *)

Section Carry.
















End Carry.

End Replay.

(** ** Closed instances *)

Section Instances.
Import IO GameplayPlayer Samples.

Lemma scroll_vertical_only_witness :
  handle_mouse_event (scroll_at 0 7 3) (mixed_player, world0)
  = scroll (VInt 7) (VInt 3) (mixed_player, world0)
  /\ Win.c_long
       (Win.mouseData
          {| Win.dx := 0; Win.dy := 0; Win.mouseData := (3 * 120) mod 2 ^ 32;
             Win.mi_dwFlags := 0x0800; Win.mi_time := 0 |}) = 3 * 120.
Proof.
  destruct (scroll_vertical_only (VInt 7) 3 (mixed_player, world0))
    as (_ & _ & Hhandler & Hsigned).
  split.
  - apply Hhandler; reflexivity.
  - apply Hsigned. lia.
Defined.

Lemma load_replay_merges_witness :
  let merged :=
    events (fst (fst (load_replay mixed_files (mixed_player, world0)))) in
  Timeline.in_time_order merged
  /\ filter Timeline.is_mouse merged = map (pair "mouse") mixed_mouse.
Proof.
  destruct (load_replay_merges mixed_files mixed_player world0
              {| Store.mouse_events := Some mixed_mouse;
                 Store.keyboard_events := Some mixed_keyboard;
                 Store.total_duration := Some (VFloat 5);
                 Store.record_date := Some (VStr "2024-01-02T03:04:05");
                 Store.metadata := None |}
              mixed_mouse mixed_keyboard eq_refl eq_refl eq_refl)
    as (_ & Hsorted & _ & _ & Hmouse & _).
  - repeat constructor.
  - split; [ exact Hsorted | ].
    apply Hmouse. unfold Timeline.in_time_order.
    repeat constructor; unfold Timeline.timestamp_of; cbn; lra.
Defined.

Lemma load_failures_precede_injection_witness :
  play mixed_files (init "routes_out/absent.json" 0 PrimFloat.one, world0)
  = ((init "routes_out/absent.json" 0 PrimFloat.one, world0),
     Raise (FileNotFoundError "routes_out/absent.json")).
Proof.
  destruct (load_failures_precede_injection mixed_files
              (init "routes_out/absent.json" 0 PrimFloat.one) world0 eq_refl)
    as (Hplay & Hnotfound & _).
  apply Hplay. apply Hnotfound. reflexivity.
Defined.

(** C4, as stated, fails on a file whose second pointer event has no
    ["type"]: the load succeeds, [play] returns, and the first event has
    been injected. *)
Lemma missing_field_counterexample :
  Store.read "routes_out/untyped.json" untyped_files
  = Some (recording_of [ click_at 0 true; [ ("timestamp", VFloat 1) ] ] [] 1)
  /\ lookup "type" [ ("timestamp", VFloat 1) ] = None
  /\ snd (play untyped_files (init "routes_out/untyped.json" 0 PrimFloat.one, world0))
     = Ok tt
  /\ sends
       (trace
          (snd (fst (play untyped_files
                       (init "routes_out/untyped.json" 0 PrimFloat.one, world0)))))
     = [ Win.mouse_input 0 0 0 Win.MOUSEEVENTF_LEFTDOWN ].
Proof. repeat split. Qed.

Lemma replay_keeps_cadence_witness :
  snd (play mixed_files (loaded_player, world0)) = Ok tt
  /\ (5 <= clock (snd (fst (play mixed_files (loaded_player, world0))))
           - 100)%Q.
Proof.
  destruct (replay_keeps_cadence (U := unicode) (M := instant)
              (fun _ => Qle_refl 0) (fun d => Qle_refl d))
    as (_ & _ & Hplay & _).
  destruct (Hplay mixed_files loaded_player world0 (loaded_player, world0))
    as (Hrun & Hdue).
  - left. split; [ discriminate | reflexivity ].
  - repeat constructor.
  - repeat constructor; vm_compute; discriminate.
  - vm_compute; discriminate.
  - split.
    + rewrite Hrun. reflexivity.
    + apply (Hdue ("keyboard", key_at 5 "w" false)).
      right. left. reflexivity.
Defined.


(** C1 at its failing input.  The key event has no ["key"]: pressing it
    raises a [KeyError], the handler's message reads ["key"] again, and the
    second [KeyError] leaves [play]; the click recorded half a second later
    is never injected and no completion line is printed. *)
Lemma keyboard_handler_escapes :
  let run := play keyless_files (init "routes_out/keyless.json" 0 PrimFloat.one, world0) in
  snd run = Raise (KeyError "key")
  /\ List.length (events (fst (fst run))) = 2%nat
  /\ sends (trace (snd (fst run))) = []
  /\ filter is_error (trace (snd (fst run))) = []
  /\ In ("mouse", click_at 1 true) (events (fst (fst run))).
Proof. vm_compute. repeat split. right. left. reflexivity. Qed.

(** The resilience scenario of the specification: fifty clicks and one key
    event whose token has no scan code are all played, with one warning
    and no error. *)
Lemma unknown_key_among_fifty :
  let run := play fifty_files (init "routes_out/fifty.json" 0 PrimFloat.one, world0) in
  snd run = Ok tt
  /\ List.length (events (fst (fst run))) = 51%nat
  /\ List.length (sends (trace (snd (fst run)))) = 50%nat
  /\ filter is_unknown_key (trace (snd (fst run)))
     = [ Printed (UnknownKey "unknown_token_zz") ]
  /\ filter is_error (trace (snd (fst run))) = []
  /\ last (trace (snd (fst run))) (Printed Start) = Printed (Finished 51).
Proof. vm_compute. repeat split. Qed.

(** The anti-stall example on doubles: the literals [0.1] and [0.8] are
    the doubles 3602879701896397 / 2^55 and 3602879701896397 / 2^52; after
    eight [dx = 1] moves at sensitivity 0.1 the remainder is below the
    double 0.8 and nothing has been injected; the units come with the
    ninth and the nineteenth move. *)
Lemma twenty_moves_on_doubles :
  let after n :=
    fold_left (fun s event => fst (handle_mouse_event event s))
      (repeat (move_at 0 1 0) n)
      (init "routes_out/moves.json" 0 (Binary64.float_of_Q (1 # 10)),
       world0) in
  map (fun n => injected_x (trace (snd (after n)))) [8; 9; 18; 19; 20]%nat
  = [0; 1; 1; 2; 2]
  /\ option_map Qred (Binary64.exact (Binary64.float_of_Q (1 # 10)))
     = Some (3602879701896397 # 36028797018963968)
  /\ option_map Qred (Binary64.exact Accumulator.lit_0_8)
     = Some (3602879701896397 # 4503599627370496)
  /\ PrimFloat.ltb (fst (accumulators (fst (after 8%nat))))
       Accumulator.lit_0_8 = true.
Proof. vm_compute. repeat split. Qed.

End Instances.

(* ================================================================== *)
(** * Further properties of the code *)

(** ** Raw-code tokens, from the recorder to the player *)

Section RawCodeTokens.
Import IO GameplayPlayer.
Context {U : Unicode} {M : Win.Machine}.

Lemma digits_value_acc (u : Decimal.uint) (acc : positive) :
  digits_value (Z.pos acc) (NilEmpty.string_of_uint u)
  = Z.pos (Pos.of_uint_acc u acc).
Proof.
  revert acc. induction u; intros acc;
    cbn [NilEmpty.string_of_uint digits_value Pos.of_uint_acc];
    try reflexivity;
    match goal with
    | |- digits_value ?v _ = Z.pos (Pos.of_uint_acc _ ?a) =>
        replace v with (Z.pos a) by (simpl (Z.of_N _); lia)
    end;
    apply IHu.
Qed.

Lemma digits_value_uint (u : Decimal.uint) :
  digits_value 0 (NilEmpty.string_of_uint u) = Z.of_N (Pos.of_uint u).
Proof.
  induction u; cbn [NilEmpty.string_of_uint digits_value Pos.of_uint];
    try reflexivity;
    try (change (10 * 0 + (Z.of_N (N_of_ascii "0") - 48)) with 0;
         exact IHu);
    match goal with
    | |- digits_value ?v _ = Z.of_N (N.pos (Pos.of_uint_acc _ ?a)) =>
        change v with (Z.pos a)
    end;
    apply digits_value_acc.
Qed.

Lemma digits_only (u : Decimal.uint) :
  all_string is_digit_char (NilEmpty.string_of_uint u) = true
  /\ is_ascii (NilEmpty.string_of_uint u) = true.
Proof.
  induction u; cbn [NilEmpty.string_of_uint all_string is_ascii];
    try (split; reflexivity);
    destruct IHu as [-> ->]; split; reflexivity.
Qed.

(** A non-empty run of digits is read as the number it spells. *)
Lemma plain_int_digits (c : ascii) (r : string) :
  all_string is_digit_char (String c r) = true ->
  plain_int (String c r) = Some (digits_value 0 (String c r)).
Proof.
  intros H. pose proof H as H'. cbn [all_string] in H'.
  apply andb_prop in H' as [Hc _].
  unfold plain_int.
  destruct c as [[] [] [] [] [] [] [] []]; try discriminate Hc;
    now rewrite H.
Qed.

(** [int(str(n)) == n] *)
Lemma plain_int_str_of_int (n : Z) :
  plain_int (str_of_int n) = Some n /\ is_ascii (str_of_int n) = true.
Proof.
  unfold str_of_int. destruct n as [ | p | p]; cbn [Z.to_int].
  - split; reflexivity.
  - cbn [NilZero.string_of_int].
    pose proof (Unsigned.to_uint_nonnil p) as Hnil.
    pose proof (DecimalPos.Unsigned.of_to p) as Hback.
    destruct (digits_only (Pos.to_uint p)) as [Hdigits Hascii].
    pose proof (digits_value_uint (Pos.to_uint p)) as Hvalue.
    destruct (Pos.to_uint p) eqn:E; try contradiction;
      cbn [NilZero.string_of_uint];
      (split; [ | exact Hascii ]);
      cbn [NilEmpty.string_of_uint] in *;
      rewrite plain_int_digits by exact Hdigits;
      rewrite Hvalue, Hback; reflexivity.
  - cbn [NilZero.string_of_int].
    pose proof (Unsigned.to_uint_nonnil p) as Hnil.
    pose proof (DecimalPos.Unsigned.of_to p) as Hback.
    destruct (digits_only (Pos.to_uint p)) as [Hdigits Hascii].
    pose proof (digits_value_uint (Pos.to_uint p)) as Hvalue.
    destruct (Pos.to_uint p) eqn:E; try contradiction;
      cbn [NilZero.string_of_uint];
      cbn [NilEmpty.string_of_uint] in *;
      (split; [ | cbn [is_ascii] in Hascii |- *; now rewrite Hascii ]);
      unfold plain_int; rewrite Hdigits, Hvalue, Hback; reflexivity.
Qed.

Lemma is_ascii_app (a b : string) :
  is_ascii (a ++ b) = is_ascii a && is_ascii b.
Proof.
  induction a as [ | c a IH]; cbn [append is_ascii]; [ reflexivity | ].
  now rewrite IH, andb_assoc.
Qed.

Lemma drop_last_app (a : string) (c : ascii) :
  drop_last (a ++ String c EmptyString) = a.
Proof.
  induction a as [ | x a IH]; cbn [append drop_last]; [ reflexivity | ].
  rewrite IH. destruct a; reflexivity.
Qed.

(** X1. The raw-code token the recorder writes for a key without a
    character is read back by the player as the same virtual-key code:
    [_get_vk_code] returns it, and [_get_scan_code] asks the key map for
    exactly that code. *)
Theorem raw_code_token_round_trip (vk : Z) (s : state) :
  BackgroundRecorder.key_to_string (Pynput.KeyCode None (Some vk))
  = Ok (BackgroundRecorder.keycode_token (Some vk))
  /\ get_vk_code (VStr (BackgroundRecorder.keycode_token (Some vk))) s
     = (s, Ok (Some vk))
  /\ get_scan_code (VStr (BackgroundRecorder.keycode_token (Some vk))) s
     = (s, match map_virtual_key vk with
           | Ok scan_code => Ok (nonzero scan_code)
           | Raise e => Raise e
           end).
Proof.
  assert (Hint : int_of_str
                   (slice_8_m1 (BackgroundRecorder.keycode_token (Some vk)))
                 = Ok vk).
  { destruct (plain_int_str_of_int vk) as [Hplain Hascii].
    unfold slice_8_m1, BackgroundRecorder.keycode_token.
    replace (is_ascii ("KeyCode(" ++ str_of_int vk ++ ")")) with true.
    - cbn [append drop]. rewrite drop_last_app.
      unfold int_of_str. now rewrite Hplain.
    - symmetry. rewrite !is_ascii_app, Hascii. reflexivity. }
  split; [ reflexivity | ].
  unfold get_vk_code, get_scan_code.
  replace (String.prefix "KeyCode("
             (BackgroundRecorder.keycode_token (Some vk))) with true
    by (unfold BackgroundRecorder.keycode_token;
        destruct (str_of_int vk ++ ")"); reflexivity).
  unfold iobind, lift, ret. rewrite Hint.
  split; [ reflexivity | ].
  destruct (map_virtual_key vk); reflexivity.
Qed.

End RawCodeTokens.

(** ** The two controllers *)

Section Controllers.
Import IO GameplayPlayer.
Context {U : Unicode} {M : Win.Machine}.

(** X2. Pressing and releasing a key resolve it the same way: both inject
    nothing when no scan code is found, both raise what the lookup raises,
    and otherwise they inject the same scan code with virtual key 0, the
    release carrying the flags of the press (8, or 9 for the two extended
    keys) plus the key-up flag 2. *)
Theorem press_release_pair (key_str : value) (s : state) :
  match get_scan_code key_str s with
  | (s1, Ok (Some scan_code)) =>
      exists flags,
        flags = (if is_extended key_str then 9 else 8)
        /\ press_key key_str s
           = send_input (Win.keybd_input 0 scan_code flags) s1
        /\ release_key key_str s
           = send_input (Win.keybd_input 0 scan_code (flags + 2)) s1
  | (s1, Ok None) =>
      press_key key_str s = (s1, Ok tt)
      /\ release_key key_str s = (s1, Ok tt)
  | (s1, Raise e) =>
      press_key key_str s = (s1, Raise e)
      /\ release_key key_str s = (s1, Raise e)
  end.
Proof.
  unfold press_key, release_key, iobind.
  destruct (get_scan_code key_str s) as [s1 [[scan_code | ] | e]].
  - exists (if is_extended key_str then 9 else 8).
    split; [ reflexivity | ].
    destruct (is_extended key_str); split; reflexivity.
  - split; reflexivity.
  - split; reflexivity.
Qed.

(** A name of the scan-code table is resolved from the table alone,
    whatever its case: nothing is printed, the key map is not asked. *)
Lemma get_scan_code_table (name : string) (scan_code : Z) (s : state) :
  String.prefix "KeyCode(" name = false ->
  scan_codes_get (lower name) scan_codes = Some scan_code ->
  get_scan_code (VStr name) s = (s, Ok (Some scan_code)).
Proof.
  intros Hp Ht. unfold get_scan_code. now rewrite Hp, Ht.
Qed.

(** X3. A click never raises; for the buttons left, right and middle it
    injects one input without motion whose flag is the button's down flag
    (2, 8, 32) when [pressed] is true and twice that, its up flag,
    otherwise; for any other button it does nothing. *)
Theorem click_buttons (button pressed : value) (s : state) :
  snd (click button pressed s) = Ok tt
  /\ (forall down,
        (eq_str button "left" = true /\ down = 2)
        \/ (eq_str button "right" = true /\ down = 8)
        \/ (eq_str button "middle" = true /\ down = 32) ->
        click button pressed s
        = send_input
            (Win.mouse_input 0 0 0
               (if truthy pressed then down else 2 * down)) s)
  /\ (eq_str button "left" = false ->
      eq_str button "right" = false ->
      eq_str button "middle" = false ->
      click button pressed s = (s, Ok tt)).
Proof.
  unfold click. split; [ | split ].
  - destruct (eq_str button "left"); [ reflexivity | ].
    destruct (eq_str button "right"); [ reflexivity | ].
    destruct (eq_str button "middle"); reflexivity.
  - intros down [[Hb ->] | [[Hb ->] | [Hb ->]]].
    + rewrite Hb. destruct (truthy pressed); reflexivity.
    + destruct button as [ | | | | b]; try discriminate Hb.
      cbn [eq_str] in *. apply String.eqb_eq in Hb. subst b.
      destruct (truthy pressed); reflexivity.
    + destruct button as [ | | | | b]; try discriminate Hb.
      cbn [eq_str] in *. apply String.eqb_eq in Hb. subst b.
      destruct (truthy pressed); reflexivity.
  - intros -> -> ->. reflexivity.
Qed.

End Controllers.


(** ** When a replay stops *)

(** Breaks a method into its steps, as in the replay section. *)
Ltac preserves_steps_with Rr Rt :=
  repeat
    match goal with
    | |- GameplayPlayer.preserves _ (GameplayPlayer.iobind _ _) =>
        apply (preserves_bind _ Rt); [ | intros ? ]
    | |- GameplayPlayer.preserves _ (GameplayPlayer.try_except _ _) =>
        apply (preserves_try _ Rt); [ | intros ? ]
    | |- GameplayPlayer.preserves _ (GameplayPlayer.ret _) =>
        apply (preserves_ret _ Rr)
    | |- GameplayPlayer.preserves _ (GameplayPlayer.raise _) =>
        apply (preserves_raise _ Rr)
    | |- GameplayPlayer.preserves _ (GameplayPlayer.lift _) =>
        apply (preserves_lift _ Rr)
    | |- GameplayPlayer.preserves _ GameplayPlayer.self =>
        apply (preserves_self _ Rr)
    | |- GameplayPlayer.preserves _ GameplayPlayer.perf_counter =>
        apply (preserves_perf_counter _ Rr)
    | |- GameplayPlayer.preserves _ (if ?b then _ else _) => destruct b
    | |- GameplayPlayer.preserves _ (match ?x with _ => _ end) => destruct x
    | |- GameplayPlayer.preserves _ (let '(_, _) := ?x in _) => destruct x
    end.

Section LoopBehaviour.
Import IO GameplayPlayer.
Context {U : Unicode} {M : Win.Machine}.

(** Waiting for an event either raises at once, or returns at once, or is
    one sleep of positive length. *)
Lemma pace_cases (start_time : Q) (event : dict) (s : state) :
  (Timeline.timed event = false
   /\ exists e, pace start_time event s = (s, Raise e))
  \/ (Timeline.timed event = true
      /\ (pace start_time event s = (s, Ok tt)
          \/ exists d, (0 < d)%Q /\ pace start_time event s = sleep d s)).
Proof.
  unfold Timeline.timed, Timeline.is_number, pace, iobind, perf_counter,
    lift, getitem.
  destruct (lookup "timestamp" event) as [v | ]; [ | left; eauto ].
  unfold less_than. cbn [as_number].
  destruct (as_number v) as [target | ] eqn:Hv.
  - right. split; [ reflexivity | ].
    destruct (Qlt_bool _ target) eqn:E; [ | now left ].
    right. eexists. split; [ | reflexivity ].
    apply Qlt_bool_true in E. lra.
  - left. split; [ reflexivity | ].
    destruct v; try discriminate Hv; eauto.
Qed.

(** A key event without ["key"] always gets out of its handler. *)
Lemma handle_keyboard_event_keyless (event : dict) (s : state) :
  lookup "key" event = None ->
  handle_keyboard_event event s = (s, Raise (KeyError "key")).
Proof.
  intros Hkey.
  unfold handle_keyboard_event, try_except, keyboard_event_body, iobind,
    lift, getitem.
  rewrite Hkey.
  destruct (lookup "pressed" event) as [v | ]; [ | reflexivity ].
  destruct (truthy v); reflexivity.
Qed.

(** A positive duration is slept, or refused for its length. *)
Lemma sleep_cases (d : Q) (s : state) :
  (0 < d)%Q ->
  sleep d s = (s, Raise OverflowError)
  \/ sleep d s
     = ((fst s, {| clock := (clock (snd s) + Win.sleep_time d)%Q;
                   trace := (trace (snd s) ++ [Sleep d])%list |}), Ok tt).
Proof.
  intros Hd. unfold sleep.
  assert (E : Qlt_bool d 0 = false).
  { unfold Qlt_bool. apply negb_false_iff. apply Qle_bool_iff. lra. }
  rewrite E. destruct (Qlt_bool Win.sleep_limit d); [ now left | now right ].
Qed.

Lemma play_event_returns (start_time : Q) (total : nat) (x : string * dict)
    (k : nat) (s : state) :
  Timeline.playable x = true ->
  (exists s', play_event start_time total x k s = (s', Ok (S k)))
  \/ play_event start_time total x k s = (s, Raise OverflowError).
Proof.
  intros Hx. pose proof Hx as Hx'. unfold Timeline.playable in Hx'.
  apply andb_prop in Hx' as [Htimed _].
  unfold play_event, iobind.
  assert (Hpace : snd (pace start_time (snd x) s) = Ok tt
                  \/ pace start_time (snd x) s = (s, Raise OverflowError)).
  { destruct (pace_cases start_time (snd x) s)
      as [[Hf _] | [_ [-> | (d & Hd & ->)]]]; [ congruence | now left | ].
    destruct (sleep_cases d s Hd) as [-> | ->]; [ now right | now left ]. }
  destruct Hpace as [Hpace | ->]; [ left | now right ].
  destruct (pace start_time (snd x) s) as [s1 r1]. cbn [snd] in Hpace.
  subst r1.
  pose proof (dispatch_returns x s1 Hx) as Hd.
  destruct (dispatch (fst x) (snd x) s1) as [s2 r2]. cbn [snd] in Hd.
  subst r2.
  destruct (count_event_returns total k s2) as (Hc & _).
  destruct (count_event total k s2) as [s3 r3]. cbn [snd] in Hc. subst r3.
  now exists s3.
Qed.

Lemma play_event_raises (start_time : Q) (total : nat) (x : string * dict)
    (k : nat) (s : state) :
  Timeline.playable x = false ->
  exists s' e, play_event start_time total x k s = (s', Raise e).
Proof.
  intros Hx. unfold Timeline.playable in Hx.
  unfold play_event, iobind.
  destruct (pace_cases start_time (snd x) s)
    as [[_ (e & ->)] | [Htimed Hpace]]; [ eauto | ].
  rewrite Htimed in Hx. cbn [andb] in Hx.
  apply orb_false_elim in Hx as [Hmouse Hkey].
  unfold dispatch. unfold Timeline.is_mouse in Hmouse. rewrite Hmouse.
  assert (Hnokey : lookup "key" (snd x) = None)
    by (destruct (lookup "key" (snd x)); [ discriminate | reflexivity ]).
  destruct Hpace as [-> | (d & Hd & ->)].
  - rewrite handle_keyboard_event_keyless by exact Hnokey. eauto.
  - destruct (sleep_cases d s Hd) as [-> | ->]; [ eauto | ].
    rewrite handle_keyboard_event_keyless by exact Hnokey. eauto.
Qed.

Lemma play_loop_returns (start_time : Q) (total : nat)
    (evs : list (string * dict)) (k : nat) (s : state) :
  Forall (fun x => Timeline.playable x = true) evs ->
  (exists s',
     play_loop start_time total evs k s = (s', Ok (k + List.length evs)%nat))
  \/ (exists s',
        play_loop start_time total evs k s = (s', Raise OverflowError)).
Proof.
  intros Hall. revert k s.
  induction Hall as [ | x evs Hx Hall IH]; intros k s; cbn [play_loop].
  - left. exists s. now rewrite Nat.add_0_r.
  - unfold iobind.
    destruct (play_event_returns start_time total x k s Hx)
      as [[s1 Hrun] | Hrun]; rewrite Hrun; [ | right; eauto ].
    destruct (IH (S k) s1) as [[s2 Hloop] | [s2 Hloop]]; rewrite Hloop.
    + left. exists s2. cbn [List.length]. now rewrite Nat.add_succ_r.
    + right. eauto.
Qed.

(** X5. On events that each have a numeric timestamp and, for a key event,
    a ["key"], the loop plays and counts them all unless a wait is longer
    than [time.sleep] accepts: [OverflowError] is the only exception it can
    end with.  At the first event that lacks one of the two, after events
    that were played, it raises: these have been played and counted, and
    nothing after it is looked at. *)
Theorem replay_stops_at_first_bad_event (start_time : Q) (total : nat)
    (k : nat) (s : state) :
  (forall evs,
     Forall (fun x => Timeline.playable x = true) evs ->
     (exists s',
        play_loop start_time total evs k s
        = (s', Ok (k + List.length evs)%nat))
     \/ (exists s',
           play_loop start_time total evs k s = (s', Raise OverflowError)))
  /\ (forall before x after s0,
        play_loop start_time total before k s
        = (s0, Ok (k + List.length before)%nat) ->
        Timeline.playable x = false ->
        exists s' e,
          play_event start_time total x (k + List.length before) s0
          = (s', Raise e)
          /\ play_loop start_time total (before ++ x :: after) k s
             = (s', Raise e)).
Proof.
  split.
  - intros evs. apply play_loop_returns.
  - intros before x after s0 Hrun Hx.
    destruct (play_event_raises start_time total x
                (k + List.length before) s0 Hx) as (s' & e & Hraise).
    exists s', e. split; [ exact Hraise | ].
    rewrite play_loop_app. unfold iobind at 1. rewrite Hrun.
    cbn [play_loop]. unfold iobind. now rewrite Hraise.
Qed.

(** The trace only grows, and by sleeps of positive length only. *)
Let grows (s s' : state) : Prop :=
  exists tr,
    trace (snd s') = (trace (snd s) ++ tr)%list
    /\ Forall positive_sleep tr.

Lemma grows_refl (s : state) : grows s s.
Proof. exists []. split; [ now rewrite app_nil_r | constructor ]. Qed.

Lemma grows_trans (s1 s2 s3 : state) :
  grows s1 s2 -> grows s2 s3 -> grows s1 s3.
Proof.
  intros (tr1 & H1 & F1) (tr2 & H2 & F2). exists (tr1 ++ tr2)%list.
  split; [ now rewrite H2, H1, app_assoc | now apply Forall_app ].
Qed.

Lemma grows_print (l : line) : preserves grows (print l).
Proof.
  intros s. exists [Printed l]. split; [ reflexivity | ].
  repeat constructor.
Qed.

Lemma grows_send (input : Win.INPUT) : preserves grows (send_input input).
Proof.
  intros s. exists [SendInput input]. split; [ reflexivity | ].
  repeat constructor.
Qed.

Lemma grows_update (f : t -> t) : preserves grows (update_self f).
Proof.
  intros s. exists []. split; [ cbn; now rewrite app_nil_r | constructor ].
Qed.

Lemma grows_sleep (d : Q) : (0 < d)%Q -> preserves grows (sleep d).
Proof.
  intros Hd s.
  destruct (sleep_cases d s Hd) as [-> | ->]; [ apply grows_refl | ].
  exists [Sleep d]. split; [ reflexivity | ].
  repeat constructor. exact Hd.
Qed.

Lemma grows_play_event (start_time : Q) (total : nat) (x : string * dict)
    (k : nat) :
  preserves grows (play_event start_time total x k).
Proof.
  unfold play_event.
  apply (preserves_bind _ grows_trans); [ | intros _ ].
  - intros s.
    destruct (pace_cases start_time (snd x) s)
      as [[_ (e & ->)] | [_ [-> | (d & Hd & ->)]]];
      [ apply grows_refl | apply grows_refl | now apply grows_sleep ].
  - apply (preserves_bind _ grows_trans); [ | intros _ ].
    + pose proof grows_print. pose proof grows_send. pose proof grows_update.
      unfold dispatch, handle_mouse_event, mouse_event_body,
        handle_move_relative, click, scroll, move_relative,
        handle_keyboard_event, keyboard_event_body, press_key, release_key,
        get_scan_code.
      preserves_steps_with grows_refl grows_trans; auto.
    + pose proof grows_print. unfold count_event.
      preserves_steps_with grows_refl grows_trans; auto.
Qed.

Lemma grows_play_loop (start_time : Q) (total : nat)
    (evs : list (string * dict)) (k : nat) :
  preserves grows (play_loop start_time total evs k).
Proof.
  revert k. induction evs as [ | x evs IH]; intros k; cbn [play_loop].
  - apply (preserves_ret _ grows_refl).
  - apply (preserves_bind _ grows_trans); [ apply grows_play_event | ].
    intros k'. apply IH.
Qed.

(** X6. Whatever the recording and however [play] ends, what it did is
    appended to what was done before, and every [time.sleep] it made had a
    positive duration: it never sleeps for zero or negative time. *)
Theorem play_sleeps_are_positive (files : Store.disk) (s : state) :
  exists tr,
    trace (snd (fst (play files s))) = (trace (snd s) ++ tr)%list
    /\ Forall positive_sleep tr.
Proof.
  change (grows s (fst (play files s))). revert s.
  change (preserves grows (play files)).
  pose proof grows_print. pose proof grows_update.
  unfold play.
  apply (preserves_bind _ grows_trans);
    [ apply (preserves_self _ grows_refl) | intros p ].
  apply (preserves_bind _ grows_trans); [ | intros _ ].
  { destruct (events p); [ | apply (preserves_ret _ grows_refl) ].
    unfold load_replay. preserves_steps_with grows_refl grows_trans; auto. }
  apply (preserves_bind _ grows_trans);
    [ apply (preserves_self _ grows_refl) | intros p' ].
  apply (preserves_bind _ grows_trans); [ | intros _ ].
  { unfold pre_roll. destruct (Qlt_bool 0 (cooldown p')) eqn:E;
      [ | apply (preserves_ret _ grows_refl) ].
    apply Qlt_bool_true in E.
    apply (preserves_bind _ grows_trans); [ auto | intros _ ].
    apply (preserves_bind _ grows_trans);
      [ now apply grows_sleep | intros _; auto ]. }
  apply (preserves_bind _ grows_trans);
    [ apply (preserves_perf_counter _ grows_refl) | intros start_time ].
  apply (preserves_bind _ grows_trans);
    [ apply grows_play_loop | intros n; auto ].
Qed.

End LoopBehaviour.

(** ** What the recorder writes *)

Section RecorderStreams.
Import BackgroundRecorder MouseListener.

Lemma sorted_snoc {A : Type} (R : A -> A -> Prop) (l : list A) (x : A) :
  StronglySorted R l ->
  Forall (fun y => R y x) l ->
  StronglySorted R (l ++ [x]).
Proof.
  induction 1 as [ | y l Hl IH Hy]; intros Hx; cbn [app].
  - repeat constructor.
  - inversion Hx as [ | ? ? Hyx Hlx]; subst.
    constructor; [ now apply IH | ].
    apply Forall_app. split; [ exact Hy | now constructor ].
Qed.

(** What one pointer callback does to a session that is recording. *)
Lemma notify_mouse (n : notification) (r : t) (t0 : Q) :
  recording r = true ->
  start_time r = Some t0 ->
  exists r',
    notify n r = Ok r'
    /\ recording r' = true
    /\ start_time r' = Some t0
    /\ keyboard_events r' = keyboard_events r
    /\ (mouse_events r' = mouse_events r
        \/ exists e,
             mouse_events r' = (mouse_events r ++ [e])%list
             /\ MouseEvent.timestamp e = Some (now_of n - t0)%Q).
Proof.
  intros Hrec Ht0.
  destruct n as [now x y | now x y button pressed | now x y dx dy];
    cbn [notify now_of];
    unfold on_mouse_move, on_mouse_click, on_mouse_scroll, elapsed;
    rewrite Hrec, Ht0; cbn [negb bind].
  - destruct (last_mouse_position r) as [[lx ly] | ];
      [ destruct (negb (x - lx =? 0)%Z || negb (y - ly =? 0)%Z) | ];
      eexists; (split; [ reflexivity | ]); cbn;
      repeat (split; [ assumption || reflexivity | ]);
      (now left) || (right; eexists; split; reflexivity).
  - eexists. split; [ reflexivity | ]. cbn.
    repeat (split; [ assumption || reflexivity | ]).
    right. eexists. split; reflexivity.
  - eexists. split; [ reflexivity | ]. cbn.
    repeat (split; [ assumption || reflexivity | ]).
    right. eexists. split; reflexivity.
Qed.

Lemma deliver_in_time_order (t0 : Q) (ns : list notification) (r : t)
    (hi : Q) :
  recording r = true ->
  start_time r = Some t0 ->
  (t0 <= hi)%Q ->
  StronglySorted Qle (hi :: map now_of ns) ->
  StronglySorted (fun a b => (stamp a <= stamp b)%Q) (mouse_events r) ->
  Forall (fun e => (0 <= stamp e)%Q /\ (stamp e <= hi - t0)%Q
                   /\ MouseEvent.timestamp e <> None) (mouse_events r) ->
  let r' := deliver ns r in
  StronglySorted (fun a b => (stamp a <= stamp b)%Q) (mouse_events r')
  /\ Forall (fun e => (0 <= stamp e)%Q /\ MouseEvent.timestamp e <> None)
       (mouse_events r')
  /\ keyboard_events r' = keyboard_events r
  /\ (List.length (mouse_events r')
      <= List.length (mouse_events r) + List.length ns)%nat.
Proof.
  revert r hi. induction ns as [ | n ns IH];
    intros r hi Hrec Ht0 Hhi Hclock Hsorted Hall; cbn [deliver].
  - cbn zeta. split; [ exact Hsorted | ].
    split; [ | split; [ reflexivity | lia ] ].
    eapply Forall_impl; [ | exact Hall ]. intros e (H1 & _ & H3). now split.
  - destruct (notify_mouse n r t0 Hrec Ht0)
      as (r1 & Hrun & Hrec1 & Ht1 & Hkb & Hmouse).
    rewrite Hrun.
    cbn [map] in Hclock.
    inversion Hclock as [ | ? ? Htail Hhead]; subst.
    inversion Hhead as [ | ? ? Hnow _]; subst.
    assert (Hall1 :
      StronglySorted (fun a b => (stamp a <= stamp b)%Q) (mouse_events r1)
      /\ Forall (fun e => (0 <= stamp e)%Q
                          /\ (stamp e <= now_of n - t0)%Q
                          /\ MouseEvent.timestamp e <> None)
           (mouse_events r1)
      /\ (List.length (mouse_events r1)
          <= S (List.length (mouse_events r)))%nat).
    { destruct Hmouse as [-> | (e & -> & He)].
      - split; [ exact Hsorted | ]. split; [ | lia ].
        eapply Forall_impl; [ | exact Hall ].
        intros e (H1 & H2 & H3). repeat split; try assumption. lra.
      - assert (Hstamp : stamp e = (now_of n - t0)%Q)
          by (unfold stamp; now rewrite He).
        split; [ | split ].
        + apply sorted_snoc; [ exact Hsorted | ].
          eapply Forall_impl; [ | exact Hall ].
          intros e' (_ & H2 & _). rewrite Hstamp. lra.
        + apply Forall_app. split.
          * eapply Forall_impl; [ | exact Hall ].
            intros e' (H1 & H2 & H3). repeat split; try assumption. lra.
          * constructor; [ | constructor ].
            rewrite Hstamp. repeat split; try lra. congruence.
        + rewrite length_app. cbn. lia. }
    destruct Hall1 as (Hsorted1 & Hall1 & Hlen1).
    destruct (IH r1 (now_of n) Hrec1 Ht1) as (H1 & H2 & H3 & H4);
      try assumption; [ lra | ].
    cbn zeta. split; [ exact H1 | ]. split; [ exact H2 | ].
    split; [ congruence | ]. cbn [List.length]. lia.
Qed.

(** X7. A session started from idle and fed pointer notifications whose
    clock readings do not go back records a pointer stream in timestamp
    order, every timestamp present and not negative; the key stream stays
    empty and no notification adds more than one event. *)
Theorem mouse_stream_in_time_order (c : clocks) (r0 : t)
    (ns : list notification) :
  recording r0 = false ->
  StronglySorted Qle (perf_counter c :: map now_of ns) ->
  let r := deliver ns (start_recording c r0) in
  StronglySorted (fun a b => (stamp a <= stamp b)%Q) (mouse_events r)
  /\ Forall (fun e => (0 <= stamp e)%Q /\ MouseEvent.timestamp e <> None)
       (mouse_events r)
  /\ keyboard_events r = []
  /\ (List.length (mouse_events r) <= List.length ns)%nat.
Proof.
  intros Hidle Hclock.
  assert (Hstart :
    recording (start_recording c r0) = true
    /\ start_time (start_recording c r0) = Some (perf_counter c)
    /\ mouse_events (start_recording c r0) = []
    /\ keyboard_events (start_recording c r0) = [])
    by (unfold start_recording; rewrite Hidle; repeat split).
  destruct Hstart as (Hrec & Ht0 & Hmouse & Hkb).
  destruct (deliver_in_time_order (perf_counter c) ns
              (start_recording c r0) (perf_counter c) Hrec Ht0
              (Qle_refl _) Hclock)
    as (H1 & H2 & H3 & H4).
  - rewrite Hmouse. constructor.
  - rewrite Hmouse. constructor.
  - cbn zeta. rewrite Hkb in H3. rewrite Hmouse in H4. cbn in H4.
    repeat split; assumption.
Qed.

Section KeyNaming.
Import Pynput.
Context {U : Unicode}.

(** X8. [_key_to_string] raises in one case only: a character key with a
    non-empty alphabetic character and no virtual-key code, where the
    comparison with 65 fails with [TypeError]; every other key gets a
    name, and a key of the enumeration gets its own name unless it is one
    of the generic modifiers, which get the name of their left variant. *)
Theorem key_to_string_raises (k : key) :
  (forall e,
     key_to_string k = Raise e <->
     e = TypeError
     /\ exists c, k = KeyCode (Some c) None /\ isalpha c = true)
  /\ (forall name,
        k = Key name ->
        key_to_string k
        = Ok (if String.eqb name "shift" || String.eqb name "ctrl"
                 || String.eqb name "alt"
              then name ++ "_l" else name)).
Proof.
  split.
  - intros e. split.
    + destruct k as [[c | ] [vk | ] | name | str]; cbn [key_to_string].
      * destruct (negb (String.eqb c "") && isalpha c);
          [ | discriminate ].
        destruct ((65 <=? vk)%Z && (vk <=? 90)%Z); [ discriminate | ].
        destruct ((192 <=? vk)%Z && (vk <=? 255)%Z); discriminate.
      * destruct (negb (String.eqb c "") && isalpha c) eqn:E;
          [ | discriminate ].
        intros [= <-]. split; [ reflexivity | ].
        exists c. split; [ reflexivity | ].
        now apply andb_prop in E.
      * discriminate.
      * discriminate.
      * destruct (String.eqb name "shift"); [ discriminate | ].
        destruct (String.eqb name "ctrl"); [ discriminate | ].
        destruct (String.eqb name "alt"); discriminate.
      * discriminate.
    + intros (-> & c & -> & Hc). cbn [key_to_string].
      pose proof (isalpha_not_empty c Hc) as Hne.
      apply String.eqb_neq in Hne. now rewrite Hne, Hc.
  - intros name ->. cbn [key_to_string].
    destruct (String.eqb name "shift") eqn:E1.
    { apply String.eqb_eq in E1. now subst. }
    destruct (String.eqb name "ctrl") eqn:E2.
    { apply String.eqb_eq in E2. now subst. }
    destruct (String.eqb name "alt") eqn:E3.
    { apply String.eqb_eq in E3. now subst. }
    reflexivity.
Qed.

End KeyNaming.

End RecorderStreams.

(** ** From the recorder's file to the replay *)

Section RecordedFile.
Import IO GameplayPlayer.
Context {U : Unicode} {M : Win.Machine}.
Hypothesis send_takes_time : forall input, (0 <= Win.send_input_time input)%Q.
Hypothesis sleep_long_enough : forall d, (d <= Win.sleep_time d)%Q.

Lemma read_write (path : string) (f : Store.file) (d : Store.disk) :
  Store.read path (Store.write path f d) = Some f.
Proof. unfold Store.write. cbn [Store.read]. now rewrite String.eqb_refl. Qed.

Lemma playable_asdict_mouse (e : MouseEvent.t) :
  MouseEvent.timestamp e <> None ->
  Timeline.timed (Store.asdict_mouse e) = true
  /\ Timeline.playable ("mouse", Store.asdict_mouse e) = true.
Proof.
  intros H. unfold Timeline.playable, Timeline.timed. cbn.
  destruct (MouseEvent.timestamp e); [ now split | contradiction ].
Qed.

(** [asdict] writes a ["key"] member for every key event. *)
Lemma playable_asdict_keyboard (e : KeyboardEvent.t) :
  KeyboardEvent.timestamp e <> None ->
  Timeline.timed (Store.asdict_keyboard e) = true
  /\ Timeline.playable ("keyboard", Store.asdict_keyboard e) = true.
Proof.
  intros H. unfold Timeline.playable, Timeline.timed. cbn.
  destruct (KeyboardEvent.timestamp e); [ now split | contradiction ].
Qed.

Lemma load_replay_returns (files : Store.disk) (p : t) (w : world)
    (data : Store.replay_data) (ms ks : list dict) (duration : Q) :
  Store.read (replay_file p) files = Some (Store.Json data) ->
  Store.mouse_events data = Some ms ->
  Store.keyboard_events data = Some ks ->
  Store.total_duration data = Some (VFloat duration) ->
  Forall (fun e => Timeline.timed e = true) (ms ++ ks) ->
  exists w',
    load_replay files (p, w)
    = ((set_events
          (Timeline.sort_q Timeline.timestamp_of
             (map (pair "mouse") ms ++ map (pair "keyboard") ks)) p, w'),
       Ok tt).
Proof.
  intros Hread Hms Hks Hdur Htimed.
  unfold load_replay, iobind, self. cbn [fst snd].
  rewrite Hread, Hms, Hks, Hdur. cbn [member lift format_2f].
  rewrite (sorted_timed _ (tagged_timed ms ks Htimed)).
  unfold update_self, print. cbn [fst snd].
  destruct (Store.record_date data); eexists; reflexivity.
Qed.

Lemma pre_roll_returns (cooldown : Q) (s : state) :
  (cooldown <= Win.sleep_limit)%Q ->
  exists w',
    pre_roll cooldown s = ((fst s, w'), Ok tt)
    /\ (clock (snd s) <= clock w')%Q.
Proof.
  intros Hlim. unfold pre_roll. destruct (Qlt_bool 0 cooldown) eqn:E.
  - apply Qlt_bool_true in E. unfold iobind, print. cbn [fst snd].
    rewrite (sleep_returns (M := M)) by (cbn [fst snd]; lra).
    cbn [fst snd clock trace]. eexists. split; [ reflexivity | ].
    cbn [clock]. pose proof (sleep_long_enough cooldown). lra.
  - exists (snd s). split; [ now destruct s | apply Qle_refl ].
Qed.

Lemma stamped_asdict_mouse (e : MouseEvent.t) (t0 : Q) :
  MouseEvent.timestamp e = Some t0 ->
  Timeline.timestamp_of ("mouse", Store.asdict_mouse e) = t0.
Proof.
  intros H. unfold Timeline.timestamp_of. cbn. now rewrite H.
Qed.

Lemma stamped_asdict_keyboard (e : KeyboardEvent.t) (t0 : Q) :
  KeyboardEvent.timestamp e = Some t0 ->
  Timeline.timestamp_of ("keyboard", Store.asdict_keyboard e) = t0.
Proof.
  intros H. unfold Timeline.timestamp_of. cbn. now rewrite H.
Qed.

(** The loop leaves [self.events] alone. *)
Lemma play_loop_keeps_events (start_time : Q) (total : nat)
    (evs : list (string * dict)) (k : nat) (s : state) :
  events (fst (fst (play_loop start_time total evs k s))) = events (fst s).
Proof.
  set (R := fun s s' : state => events (fst s') = events (fst s)).
  assert (R_refl : forall s0, R s0 s0) by reflexivity.
  assert (R_trans : forall s1 s2 s3, R s1 s2 -> R s2 s3 -> R s1 s3)
    by (unfold R; intros; congruence).
  assert (Hprint : forall l, preserves R (print l))
    by (intros l s0; reflexivity).
  assert (Hsend : forall input, preserves R (send_input input))
    by (intros input s0; reflexivity).
  assert (Hacc : forall acc, preserves R (update_self (set_mouse_accumulator acc)))
    by (intros acc s0; reflexivity).
  change (R s (fst (play_loop start_time total evs k s))).
  revert k s. induction evs as [ | x evs IH]; intros k s; cbn [play_loop].
  - apply R_refl.
  - revert s. change (preserves R
                        (iobind (play_event start_time total x k)
                           (play_loop start_time total evs))).
    apply (preserves_bind _ R_trans); [ | intros k' s; apply IH ].
    unfold play_event.
    apply (preserves_bind _ R_trans); [ | intros _ ].
    + intros s.
      destruct (pace_cases start_time (snd x) s)
        as [[_ (e & ->)] | [_ [-> | (d & Hd & ->)]]]; try reflexivity.
      destruct (sleep_cases d s Hd) as [-> | ->]; reflexivity.
    + apply (preserves_bind _ R_trans); [ | intros _ ].
      * unfold dispatch, handle_mouse_event, mouse_event_body,
          handle_move_relative, click, scroll, move_relative,
          handle_keyboard_event, keyboard_event_body, press_key,
          release_key, get_scan_code.
        preserves_steps_with R_refl R_trans; auto.
      * unfold count_event. preserves_steps_with R_refl R_trans; auto.
Qed.

(** X9. Stopping a session writes a file that the player loads and plays
    to the end: for a recording session whose events all carry a
    timestamp, [stop_recording] returns with the session idle and the
    elapsed time as duration, and [play] on the file it wrote returns,
    having loaded the stable merge of the two recorded streams and counted
    every recorded event.  The timestamps and the cooldown are durations
    that [time.sleep] accepts, and the clock does not run backwards. *)
Theorem recorded_file_plays (c : BackgroundRecorder.clocks)
    (r : BackgroundRecorder.t) (d : Store.disk) (name : string) (t0 : Q)
    (cooldown : Q) (sensitivity : PrimFloat.float) (w : world) :
  BackgroundRecorder.recording r = true ->
  BackgroundRecorder.start_time r = Some t0 ->
  BackgroundRecorder.filename r = Some name ->
  BackgroundRecorder.record_start_time r <> None ->
  Forall (fun e => MouseEvent.timestamp e <> None)
    (BackgroundRecorder.mouse_events r) ->
  Forall (fun e => KeyboardEvent.timestamp e <> None)
    (BackgroundRecorder.keyboard_events r) ->
  Forall (fun e => forall t1, MouseEvent.timestamp e = Some t1 ->
                              (t1 <= Win.sleep_limit)%Q)
    (BackgroundRecorder.mouse_events r) ->
  Forall (fun e => forall t1, KeyboardEvent.timestamp e = Some t1 ->
                              (t1 <= Win.sleep_limit)%Q)
    (BackgroundRecorder.keyboard_events r) ->
  (cooldown <= Win.sleep_limit)%Q ->
  exists r' d',
    BackgroundRecorder.stop_recording c r d = Ok (r', d')
    /\ BackgroundRecorder.recording r' = false
    /\ BackgroundRecorder.total_duration r'
       = (BackgroundRecorder.perf_counter c - t0)%Q
    /\ let run :=
         play d' (init ("routes_out/" ++ name) cooldown sensitivity, w) in
       let recorded :=
         (map (pair "mouse")
            (map Store.asdict_mouse (BackgroundRecorder.mouse_events r))
          ++ map (pair "keyboard")
               (map Store.asdict_keyboard
                  (BackgroundRecorder.keyboard_events r)))%list in
       snd run = Ok tt
       /\ events (fst (fst run))
          = Timeline.sort_q Timeline.timestamp_of recorded
       /\ exists tr,
            trace (snd (fst run))
            = (tr ++ [Printed (Finished (List.length recorded))])%list.
Proof.
  intros Hrec Ht0 Hname Hwall Hmouse Hkeys Hmouse_lim Hkeys_lim Hcool.
  unfold BackgroundRecorder.stop_recording, BackgroundRecorder.elapsed.
  rewrite Hrec. cbn [negb BackgroundRecorder.start_time].
  rewrite Ht0. cbn [bind BackgroundRecorder.filename
                    BackgroundRecorder.record_start_time].
  rewrite Hname.
  destruct (BackgroundRecorder.record_start_time r); [ | contradiction ].
  eexists. eexists. split; [ reflexivity | ].
  split; [ reflexivity | ]. split; [ reflexivity | ].
  cbn zeta.
  set (ms := map Store.asdict_mouse (BackgroundRecorder.mouse_events r)).
  set (ks := map Store.asdict_keyboard
               (BackgroundRecorder.keyboard_events r)).
  set (merged := Timeline.sort_q Timeline.timestamp_of
                   (map (pair "mouse") ms ++ map (pair "keyboard") ks)).
  assert (Htimed : Forall (fun e => Timeline.timed e = true) (ms ++ ks)).
  { apply Forall_app. split; apply Forall_map.
    - eapply Forall_impl; [ | exact Hmouse ].
      intros e He. now apply playable_asdict_mouse.
    - eapply Forall_impl; [ | exact Hkeys ].
      intros e He. now apply playable_asdict_keyboard. }
  assert (Hplayable : Forall (fun x => Timeline.playable x = true) merged).
  { eapply Permutation_Forall; [ symmetry; apply sort_q_perm | ].
    apply Forall_app. split; apply Forall_map; apply Forall_map.
    - eapply Forall_impl; [ | exact Hmouse ].
      intros e He. now apply playable_asdict_mouse.
    - eapply Forall_impl; [ | exact Hkeys ].
      intros e He. now apply playable_asdict_keyboard. }
  assert (Hdue :
    Forall (fun x => (Timeline.timestamp_of x <= Win.sleep_limit)%Q) merged).
  { eapply Permutation_Forall; [ symmetry; apply sort_q_perm | ].
    apply Forall_app. split; apply Forall_map; apply Forall_map;
      apply Forall_forall; intros e He.
    - pose proof (proj1 (Forall_forall _ _) Hmouse e He) as Hsome.
      pose proof (proj1 (Forall_forall _ _) Hmouse_lim e He) as Hle.
      destruct (MouseEvent.timestamp e) as [t1 | ] eqn:Ht1;
        [ | contradiction ].
      rewrite (stamped_asdict_mouse e t1 Ht1). now apply Hle.
    - pose proof (proj1 (Forall_forall _ _) Hkeys e He) as Hsome.
      pose proof (proj1 (Forall_forall _ _) Hkeys_lim e He) as Hle.
      destruct (KeyboardEvent.timestamp e) as [t1 | ] eqn:Ht1;
        [ | contradiction ].
      rewrite (stamped_asdict_keyboard e t1 Ht1). now apply Hle. }
  assert (Hlen : List.length merged
                 = List.length
                     (map (pair "mouse") ms ++ map (pair "keyboard") ks))
    by (apply Permutation_length, sort_q_perm).
  unfold BackgroundRecorder.save_recording.
  cbn [BackgroundRecorder.mouse_events BackgroundRecorder.keyboard_events
       BackgroundRecorder.total_duration].
  fold ms ks.
  match goal with
  | |- context [Store.write ?path (Store.Json ?data) d] =>
      destruct (load_replay_returns
                  (Store.write path (Store.Json data) d)
                  (init path cooldown sensitivity) w data ms ks
                  (BackgroundRecorder.perf_counter c - t0)%Q
                  (read_write _ _ _) eq_refl eq_refl eq_refl Htimed)
        as (w1 & Hload)
  end.
  fold merged in Hload.
  unfold play, iobind, self. cbn [fst snd events init].
  rewrite Hload. cbn [fst snd].
  match goal with
  | |- context [pre_roll ?cd ?st] =>
      destruct (pre_roll_returns cd st Hcool) as (w2 & Hroll & _)
  end.
  rewrite Hroll. cbn [fst snd perf_counter events set_events].
  match goal with
  | |- context [play_loop ?st ?tot ?evs 0 ?s0] =>
      destruct (play_loop_playable send_takes_time sleep_long_enough
                  st tot evs 0 s0 Hplayable Hdue (Qle_refl _))
        as (Hloop & _);
      pose proof (play_loop_keeps_events st tot evs 0 s0) as Hkeep
  end.
  rewrite Hloop in Hkeep |- *. cbn [fst snd] in Hkeep.
  cbn [fst snd print trace Nat.add events set_events] in Hkeep |- *.
  split; [ reflexivity | ]. split; [ exact Hkeep | ].
  eexists. now rewrite Hlen.
Qed.

End RecordedFile.

(** ** Names the recorder writes, resolved by the player *)

Section RecordedNames.
Import IO GameplayPlayer.
Context {U : Unicode} {M : Win.Machine}.

(** X10. The name the recorder gives an alphabetic character key with a
    Latin code (65 to 90) or a secondary-layout letter code (192 to 217)
    is always found in the player's scan-code table: replaying it never
    asks the key map and never ends in the unknown-key warning. *)
Theorem letter_names_have_scan_codes (c : string) (vk : Z) (s : state) :
  isalpha c = true ->
  65 <= vk <= 90 \/ 192 <= vk <= 217 ->
  exists name scan_code,
    BackgroundRecorder.key_to_string (Pynput.KeyCode (Some c) (Some vk))
    = Ok name
    /\ scan_codes_get name scan_codes = Some scan_code
    /\ get_scan_code (VStr name) s = (s, Ok (Some scan_code)).
Proof.
  intros Hc Hvk.
  assert (Hname :
    exists name scan_code,
      BackgroundRecorder.key_to_string (Pynput.KeyCode (Some c) (Some vk))
      = Ok name
      /\ scan_codes_get name scan_codes = Some scan_code
      /\ String.prefix "KeyCode(" name = false
      /\ lower name = name).
  { rewrite (key_to_string_alpha c vk Hc).
    destruct Hvk as [Hvk | Hvk]; pattern vk.
    - apply (Z_range_cases 65 26); [ | lia ].
      intros k Hk.
      do 26 (destruct k as [ | k];
             [ eexists; eexists; repeat split; reflexivity | ]).
      lia.
    - apply (Z_range_cases 192 26); [ | lia ].
      intros k Hk.
      do 26 (destruct k as [ | k];
             [ eexists; eexists; repeat split; reflexivity | ]).
      lia. }
  destruct Hname as (name & scan_code & Hkey & Htable & Hprefix & Hlower).
  exists name, scan_code. split; [ exact Hkey | ]. split; [ exact Htable | ].
  apply get_scan_code_table; [ exact Hprefix | now rewrite Hlower ].
Qed.

End RecordedNames.

(** ** Closed instances of the further properties *)

Section FurtherInstances.
Import IO GameplayPlayer Samples.

Lemma click_buttons_witness :
  click (VStr "right") (VBool false) (mixed_player, world0)
  = send_input (Win.mouse_input 0 0 0 16) (mixed_player, world0)
  /\ click (VStr "x1") (VBool true) (mixed_player, world0)
     = ((mixed_player, world0), Ok tt).
Proof.
  destruct (click_buttons (VStr "right") (VBool false) (mixed_player, world0))
    as (_ & Hknown & _).
  destruct (click_buttons (VStr "x1") (VBool true) (mixed_player, world0))
    as (_ & _ & Hother).
  split.
  - apply (Hknown 8). right. left. split; reflexivity.
  - apply Hother; reflexivity.
Defined.

Lemma replay_stops_at_first_bad_event_witness :
  exists s' e,
    play_loop 100 3
      ([ ("mouse", click_at 1 true) ]
       ++ ("keyboard", [ ("pressed", VBool true); ("timestamp", VFloat 2) ])
          :: [ ("mouse", click_at 3 false) ])
      0 (mixed_player, world0)
    = (s', Raise e).
Proof.
  destruct (replay_stops_at_first_bad_event (U := unicode) (M := instant)
              100 3 0 (mixed_player, world0)) as [_ Hstop].
  destruct (Hstop [ ("mouse", click_at 1 true) ]
              ("keyboard", [ ("pressed", VBool true); ("timestamp", VFloat 2) ])
              [ ("mouse", click_at 3 false) ]
              (fst (play_loop 100 3 [ ("mouse", click_at 1 true) ] 0
                      (mixed_player, world0))))
    as (s' & e & _ & Hrun).
  - reflexivity.
  - reflexivity.
  - exists s', e. exact Hrun.
Defined.

Lemma mouse_stream_in_time_order_witness :
  let r :=
    MouseListener.deliver
      [ MouseListener.Move 11 0 0; MouseListener.Move 12 3 4;
        MouseListener.Click 12 3 4 "left" true;
        MouseListener.Scroll 13 3 4 0 (-1) ]
      (BackgroundRecorder.start_recording (clocks_at 10)
         BackgroundRecorder.init) in
  StronglySorted
    (fun a b => (MouseListener.stamp a <= MouseListener.stamp b)%Q)
    (BackgroundRecorder.mouse_events r)
  /\ BackgroundRecorder.keyboard_events r = [].
Proof.
  destruct (mouse_stream_in_time_order (clocks_at 10) BackgroundRecorder.init
              [ MouseListener.Move 11 0 0; MouseListener.Move 12 3 4;
                MouseListener.Click 12 3 4 "left" true;
                MouseListener.Scroll 13 3 4 0 (-1) ])
    as (Hsorted & _ & Hkeys & _).
  - reflexivity.
  - repeat constructor; cbn; lra.
  - split; assumption.
Defined.

Lemma key_to_string_raises_witness :
  BackgroundRecorder.key_to_string (U := unicode) (Pynput.Key "ctrl")
  = Ok "ctrl_l"
  /\ BackgroundRecorder.key_to_string (U := unicode)
       (Pynput.KeyCode (Some "q") None) = Raise TypeError.
Proof.
  destruct (key_to_string_raises (U := unicode) (Pynput.Key "ctrl"))
    as [_ Hname].
  destruct (key_to_string_raises (U := unicode)
              (Pynput.KeyCode (Some "q") None)) as [Hraise _].
  split.
  - apply (Hname "ctrl"). reflexivity.
  - apply Hraise. split; [ reflexivity | ].
    exists "q". split; reflexivity.
Defined.

Lemma recorded_file_plays_witness :
  let r :=
    MouseListener.deliver
      [ MouseListener.Move 11 0 0; MouseListener.Move 12 3 4 ] started in
  exists r' d',
    BackgroundRecorder.stop_recording (clocks_at 15) r [] = Ok (r', d')
    /\ snd (play d'
              (init "routes_out/replay_2024-01-02_03-04-05.json" 0
                 PrimFloat.one,
               world0)) = Ok tt.
Proof.
  intros r.
  destruct (recorded_file_plays (U := unicode) (M := instant)
              (fun _ => Qle_refl 0) (fun d => Qle_refl d)
              (clocks_at 15) r [] "replay_2024-01-02_03-04-05.json" 10
              0 PrimFloat.one world0)
    as (r' & d' & Hstop & _ & _ & Hplay & _).
  - reflexivity.
  - reflexivity.
  - reflexivity.
  - discriminate.
  - repeat constructor; discriminate.
  - constructor.
  - repeat constructor. intros t1 [= <-]. vm_compute. discriminate.
  - constructor.
  - vm_compute. discriminate.
  - exists r', d'. split; [ exact Hstop | exact Hplay ].
Defined.

Lemma letter_names_have_scan_codes_witness :
  exists name scan_code,
    BackgroundRecorder.key_to_string (U := unicode)
      (Pynput.KeyCode (Some kha) (Some 215)) = Ok name
    /\ scan_codes_get name scan_codes = Some scan_code.
Proof.
  destruct (letter_names_have_scan_codes (U := unicode) (M := instant)
              kha 215 (mixed_player, world0))
    as (name & scan_code & Hname & Htable & _).
  - reflexivity.
  - right. lia.
  - exists name, scan_code. split; assumption.
Defined.

End FurtherInstances.
